(** * Parking-auction monitor

    A shallow embedding of [parking_auction_monitor.py] and the properties
    its specification states about it.

    Conventions of the embedding.
    - A Python [str] is a [string]: the sequence of the bytes of its UTF-8
      encoding.  Substring tests and the code-point order used by [sorted]
      are the same on code points and on UTF-8 bytes.
    - [str.lower], [str.strip] and [datetime.strptime] are library
      functions; the program is parametrised by them (class [PyLib]), and
      [json.dump]/[json.load] by class [JsonCodec].  What a property needs
      to know of them is a hypothesis of its statement.  Instances
      follow the program (that of [PyLib] for ASCII text) and are used
      in the examples.
    - [json.load] returns whatever JSON value the file holds: a value of
      type [PyValue], of which a [dict] is one case.  A [dict] keeps its
      items in insertion order, as [json.dump] writes them.  Membership
      (line 165) and item assignment (line 109) are defined on every
      value and raise [TypeError] where Python does.
    - A naive [datetime] is the number of microseconds elapsed since
      [datetime.min] (0001-01-01 00:00:00); comparison of datetimes is
      comparison of these numbers.
    - Exceptions are values of type [exn]; a computation returns [res A].
      File effects are threaded through a state-and-exception monad [M]
      over the files of the working directory.  What the environment
      answers to the run (clock readings, the fetched page, I/O faults) is
      collected in a record [Env].
    - Log messages are not modelled: no control flow depends on them. *)

From Stdlib Require Import ZArith Ascii String.
From stdpp Require Import gmap strings list sorting pretty.


(** ** Configuration (lines 12-34) *)

Definition RESULTS_FILE : string := "found_results.json".
Definition SUBJECT_FILE : string := "subject.txt".
Definition BODY_FILE : string := "body.txt".

Definition base_url : string := "https://www.primaria-iasi.ro".
Definition url : string :=
  base_url +:+ "/dm_iasi/portal.nsf/pagini/licitatii+2026-000465A2?Open".

Definition search_terms : list (string * string) :=
  [ ("Nr. 33", "964B");
    ("Tudor Neculai", "971B");
    ("Tudor Neculai", "971A") ].

(** ** Datetimes *)

Abbreviation datetime := Z (only parsing).

Definition datetime_min : datetime := 0%Z.

(** [timedelta(days=n)] in microseconds. *)
Definition timedelta_days (n : Z) : Z := (n * 86400 * 1000000)%Z.

(** ** Exceptions and results *)

(** The classes of [Exception] the program can meet. *)
Inductive exc_class :=
  | RequestException   (* requests.RequestException, also raise_for_status *)
  | OSError            (* open / read / write *)
  | JSONDecodeError    (* json.load on a malformed file *)
  | KeyError           (* link['href'] on an anchor without href *)
  | TypeError          (* membership or item assignment on a value without it *)
  | OverflowError.     (* datetime arithmetic out of range *)

(** [SystemExit] and [KeyboardInterrupt] derive from [BaseException]
    only: an [except Exception] clause does not catch them. *)
Inductive exn :=
  | SystemExit (code : Z)
  | KeyboardInterrupt
  | Exception (c : exc_class).

Inductive res (A : Type) :=
  | Ok (a : A)
  | Raise (e : exn).
Arguments Ok {A} a.
Arguments Raise {A} e.

Definition res_bind {A B} (f : A → res B) (x : res A) : res B :=
  match x with
  | Ok a => f a
  | Raise e => Raise e
  end.

#[global] Instance res_mret : MRet res := λ A a, Ok a.
#[global] Instance res_mbind : MBind res := λ A B f x, res_bind f x.

(** ** Files and the monad of the program *)

Abbreviation FS := (gmap string string) (only parsing).

Definition M (A : Type) : Type := FS → res A * FS.

Definition M_ret {A} (a : A) : M A := λ fs, (Ok a, fs).

Definition M_bind {A B} (f : A → M B) (m : M A) : M B :=
  λ fs, match m fs with
        | (Ok a, fs') => f a fs'
        | (Raise e, fs') => (Raise e, fs')
        end.

#[global] Instance M_mret : MRet M := λ A a, M_ret a.
#[global] Instance M_mbind : MBind M := λ A B f m, M_bind f m.

Definition raise {A} (e : exn) : M A := λ fs, (Raise e, fs).

(** A pure computation that may raise, run inside [M]. *)
Definition lift {A} (x : res A) : M A := λ fs, (x, fs).

(** [sys.exit(code)] raises [SystemExit]. *)
Definition sys_exit {A} (code : Z) : M A := raise (SystemExit code).

(** [try: body  except Exception as e: handler]. *)
Definition try_except {A} (body : M A) (handler : exc_class → M A) : M A :=
  λ fs, match body fs with
        | (Raise (Exception c), fs') => handler c fs'
        | other => other
        end.

(** ** Library functions the program calls *)

Class PyLib := {
  (** [s.lower()] *)
  lower : string → string;
  (** [s.strip()] *)
  strip : string → string;
  (** [datetime.strptime(s, '%d.%m.%Y')]; [None] stands for [ValueError]. *)
  strptime_dmY : string → option datetime;
}.

(** ** Data *)

(** A [dict] with string keys: its items in insertion order, each key
    once.  [d !! key] is [d.get(key)], and [<[key := value]> d] is the
    dict after [d[key] = value]: the value is replaced where the key
    stands, or the item is added at the end. *)
Record Dict (V : Type) := MkDict { dict_items : list (string * V) }.
Arguments MkDict {V} dict_items.
Arguments dict_items {V} d.

Fixpoint assoc_get {V} (key : string) (items : list (string * V)) : option V :=
  match items with
  | [] => None
  | (k, v) :: items' => if decide (k = key) then Some v else assoc_get key items'
  end.

Fixpoint assoc_set {V} (key : string) (value : V)
    (items : list (string * V)) : list (string * V) :=
  match items with
  | [] => [(key, value)]
  | (k, v) :: items' =>
      if decide (k = key) then (key, value) :: items'
      else (k, v) :: assoc_set key value items'
  end.

#[global] Instance dict_lookup {V} : Lookup string V (Dict V) :=
  λ key d, assoc_get key (dict_items d).
#[global] Instance dict_insert {V} : Insert string V (Dict V) :=
  λ key value d, MkDict (assoc_set key value (dict_items d)).
#[global] Instance dict_empty {V} : Empty (Dict V) := MkDict [].
#[global] Instance dict_dom {V} : Dom (Dict V) (gset string) :=
  λ d, list_to_set (dict_items d).*1.

(** The values [json.load] returns. *)
#[local] Unset Elimination Schemes.
Inductive PyValue :=
  | PyNone                          (* null *)
  | PyBool (b : bool)               (* true, false *)
  | PyInt (n : Z)                   (* a number without fraction or exponent *)
  | PyFloat (literal : string)      (* a float, by a literal that denotes it *)
  | PyStr (s : string)
  | PyList (items : list PyValue)
  | PyDict (d : Dict PyValue).
#[local] Set Elimination Schemes.

Class JsonCodec := {
  (** the text [json.dump] writes for a value *)
  json_dump : PyValue → string;
  (** [json.load]; [None] stands for the exception it raises on a text
      that is not JSON *)
  json_load : string → option PyValue;
}.

(** The parts of the parsed page the program looks at. *)
Record Anchor := {
  a_text : string;            (* link.text *)
  a_href : option string;     (* link['href'], absent when the tag has none *)
}.

Record Td := {
  td_text : string;           (* column.text *)
  td_a : option Anchor;       (* column.find('a') *)
}.

(** [row.find_all('td')] *)
Abbreviation Tr := (list Td) (only parsing).

Record Table := {
  tbody : option (list Tr);   (* table.find('tbody'), with its find_all('tr') *)
  all_tr : list Tr;           (* table.find_all('tr') *)
}.

(** One entry of [results] (line 160). *)
Record Row := {
  title : string;
  pdf_url : string;
  date_str : string;
  date : option datetime;
  matched_terms : list string;
}.

#[global] Instance Row_eq_dec : EqDecision Row.
Proof. solve_decision. Defined.

(** ** What the environment answers during one run *)

Inductive write_outcome :=
  | WriteOk
  (** the write raises; [residue] is what it leaves in the file, if it was
      opened at all *)
  | WriteFail (residue : option string).

Inductive Response :=
  (** [requests.get] or [raise_for_status] raises *)
  | FetchFailed
  (** the page, with [soup.find('table', id='fisierePMI')] *)
  | Page (table : option Table).

Record Env := {
  env_now : datetime;               (* datetime.now(), line 125 *)
  env_timestamp : string;           (* the formatted Bucharest time, line 106 *)
  env_response : Response;          (* lines 129-132 *)
  env_load_fails : bool;            (* reading the store raises, line 124 *)
  env_reload_fails : bool;          (* reading the store raises, line 107 *)
  env_subject_write : write_outcome;
  env_body_write : write_outcome;
  env_store_write : write_outcome;
}.

(** ** Strings *)

(** [s.startswith(p)] *)
Fixpoint startswith (p s : string) : bool :=
  match p, s with
  | EmptyString, _ => true
  | String a p', String b s' => if decide (a = b) then startswith p' s' else false
  | String _ _, EmptyString => false
  end.

(** [needle in hay] on strings. *)
Fixpoint str_in (needle hay : string) : bool :=
  startswith needle hay ||
  match hay with
  | EmptyString => false
  | String _ hay' => str_in needle hay'
  end.

(** [sep.join(l)] *)
Fixpoint str_join (sep : string) (l : list string) : string :=
  match l with
  | [] => ""
  | [x] => x
  | x :: l' => x +:+ sep +:+ str_join sep l'
  end.

(** The one-character string holding a double quote. *)
Definition dquote : string := String (ascii_of_nat 34) EmptyString.

(** What an f-string prints for an optional string ([None] prints as
    the four letters [None]). *)
Definition fstr_opt (o : option string) : string :=
  match o with
  | Some s => s
  | None => "None"
  end.

(** ** The program *)

Section Program.
Context `{PyLib} `{JsonCodec}.

(** [parse_date] (lines 36-41). *)
Definition parse_date (date_str : string) : option datetime :=
  match strptime_dmY date_str with
  | Some d => Some d
  | None => None              (* except ValueError: return None *)
  end.

(** [with open(filename, 'r') as f: json.load(f)]. *)
Definition read_json (fails : bool) (filename : string) : M PyValue :=
  λ fs,
    if fails then (Raise (Exception OSError), fs)
    else match fs !! filename with
         | None => (Raise (Exception OSError), fs)
         | Some text =>
             match json_load text with
             | Some value => (Ok value, fs)
             | None => (Raise (Exception JSONDecodeError), fs)
             end
         end.

(** [os.path.exists(filename)] *)
Definition path_exists (filename : string) : M bool :=
  λ fs, (Ok (bool_decide (is_Some (fs !! filename))), fs).

(** [load_sent_results] (lines 43-52): what [json.load] returned,
    whatever its type, or [{}]. *)
Definition load_sent_results (fails : bool) : M PyValue :=
  try_except
    (present ← path_exists RESULTS_FILE;
     if (present : bool) then read_json fails RESULTS_FILE
     else mret (PyDict ∅))
    (λ _, mret (PyDict ∅)).

(** [with open(filename, 'w') as f: f.write(content)]. *)
Definition write_text (o : write_outcome) (filename content : string) : M unit :=
  λ fs,
    match o with
    | WriteOk => (Ok tt, <[filename := content]> fs)
    | WriteFail None => (Raise (Exception OSError), fs)
    | WriteFail (Some junk) => (Raise (Exception OSError), <[filename := junk]> fs)
    end.

(** [save_results] (lines 54-60). *)
Definition save_results (o : write_outcome) (sent_results : PyValue) : M unit :=
  try_except
    (write_text o RESULTS_FILE (json_dump sent_results))
    (λ _, mret tt).

(** [write_file_output] (lines 114-121). *)
Definition write_file_output (o : write_outcome) (filename content : string) : M unit :=
  try_except
    (write_text o filename content)
    (λ _, sys_exit 1%Z).

(** The label of a matched combination (line 155). *)
Definition combo_label (term1 term2 : string) : string :=
  "('" +:+ term1 +:+ "', '" +:+ term2 +:+ "')".

(** The loop of lines 148-155. *)
Definition matching_combos (title_lower : string)
    (search_terms : list (string * string)) : list string :=
  foldl (λ combos '(term1, term2),
           let term1_lower := lower term1 in
           let term2_lower := lower term2 in
           if str_in term1_lower title_lower && str_in term2_lower title_lower
           then combos ++ [combo_label term1 term2]
           else combos)
        [] search_terms.

(** Line 142: the title of a row, from the anchor of its first cell
    when there is one. *)
Definition cell_title (title_col : Td) : string :=
  match td_a title_col with
  | Some link => strip (a_text link)
  | None => strip (td_text title_col)
  end.

(** Line 143: [link['href'] if link else None]. *)
Definition cell_href (title_col : Td) : res (option string) :=
  match td_a title_col with
  | Some link => match a_href link with
                 | Some href => Ok (Some href)
                 | None => Raise (Exception KeyError)
                 end
  | None => Ok None
  end.

(** Lines 159-160: the entry appended for a matched row. *)
Definition result_row (title : string) (pdf_url : option string)
    (date_str : string) (matching : list string) : Row :=
  let full_pdf_url := base_url +:+ fstr_opt pdf_url in
  {| title := title; pdf_url := full_pdf_url; date_str := date_str;
     date := parse_date date_str; matched_terms := matching |}.

(** The body of the loop over the rows of the table (lines 138-160):
    [results] after the row with cells [columns] has been visited. *)
Definition visit_row (search_terms : list (string * string))
    (results : list Row) (columns : Tr) : res (list Row) :=
  match columns with
  | title_col :: date_col :: _ =>
      let title := cell_title title_col in
      pdf_url ← cell_href title_col;
      let date_str := strip (td_text date_col) in
      let title_lower := lower title in
      let combos := matching_combos title_lower search_terms in
      match combos with
      | [] => Ok results
      | _ :: _ => Ok (results ++ [result_row title pdf_url date_str combos])
      end
  | _ => Ok results           (* fewer than two cells *)
  end.

(** The rows the loop iterates over (line 137). *)
Definition table_rows (table : Table) : list Tr :=
  match tbody table with
  | Some trs => trs
  | None => all_tr table
  end.

(** The whole loop (lines 136-160). *)
Definition extract_results (search_terms : list (string * string))
    (table : Table) : res (list Row) :=
  foldl (λ acc columns, results ← acc; visit_row search_terms results columns)
        (Ok []) (table_rows table).

(** The sort key of line 162. *)
Definition sort_key (x : Row) : datetime :=
  match date x with
  | Some d => d
  | None => datetime_min
  end.

(** [l.sort(key=key, reverse=True)]: a stable sort, greatest key first. *)
Fixpoint insert_reverse {A} (key : A → Z) (x : A) (l : list A) : list A :=
  match l with
  | [] => [x]
  | y :: l' => if (key y <=? key x)%Z then x :: y :: l'
               else y :: insert_reverse key x l'
  end.

Definition sort_reverse {A} (key : A → Z) (l : list A) : list A :=
  foldr (insert_reverse key) [] l.

(** [x in container] for a string [x] (line 165): a key of a dict, an
    element of a list (an element equal to [x] is a string), a substring
    of a string; [TypeError] on a value that is not iterable. *)
Definition contains (container : PyValue) (x : string) : res bool :=
  match container with
  | PyDict d => Ok (bool_decide (is_Some (d !! x)))
  | PyList items =>
      Ok (existsb (λ item, match item with
                           | PyStr s => bool_decide (s = x)
                           | _ => false
                           end) items)
  | PyStr s => Ok (str_in x s)
  | PyNone | PyBool _ | PyInt _ | PyFloat _ => Raise (Exception TypeError)
  end.

(** Line 165: the comprehension evaluates its test on each result in
    turn. *)
Fixpoint new_results (results : list Row) (old_results : PyValue) : res (list Row) :=
  match results with
  | [] => Ok []
  | result :: results' =>
      known ← contains old_results (pdf_url result);
      new ← new_results results' old_results;
      Ok (if (known : bool) then new else result :: new)
  end.

(** The test of line 168: [r['date'] and r['date'] >= two_weeks_ago]. *)
Definition is_recent (two_weeks_ago : datetime) (r : Row) : bool :=
  match date r with
  | Some d => (two_weeks_ago <=? d)%Z
  | None => false
  end.

Definition recent_new_results (new_results : list Row)
    (two_weeks_ago : datetime) : list Row :=
  List.filter (is_recent two_weeks_ago) new_results.

(** Lines 162-168 together: the rows handed to the formatter. *)
Definition select (results : list Row) (old_results : PyValue)
    (two_weeks_ago : datetime) : res (list Row) :=
  new ← new_results (sort_reverse sort_key results) old_results;
  Ok (recent_new_results new two_weeks_ago).

(** [datetime.now() - timedelta(days=14)] (line 125); the subtraction
    raises [OverflowError] below [datetime.min]. *)
Definition two_weeks_before (now : datetime) : res datetime :=
  let d := (now - timedelta_days 14)%Z in
  if (d <? datetime_min)%Z then Raise (Exception OverflowError) else Ok d.

(** Lines 71-75. *)
Definition all_matched_terms (rows : list Row) : gset string :=
  foldl (λ s r, s ∪ list_to_set (matched_terms r)) ∅ rows.

(** [sorted(s)] for a set of strings. *)
Definition sorted (s : gset string) : list string :=
  merge_sort String.le (elements s).

Definition subject_content (rows : list Row) : string :=
  "[" +:+ str_join ", " (sorted (all_matched_terms rows)) +:+ "]".

(** Lines 79-98. *)
Definition body_entry (result : Row) : string :=
  "<div>"
  +:+ "<p><strong>Title:</strong> " +:+ title result +:+ "</p>"
  +:+ "<p><strong>PDF URL:</strong> <a href=" +:+ dquote +:+ pdf_url result
      +:+ dquote +:+ ">View Auction PDF</a></p>"
  +:+ "<p><strong>Date:</strong> " +:+ date_str result +:+ "</p>"
  +:+ "<p><strong>Matched combinations:</strong> "
      +:+ str_join ", " (matched_terms result) +:+ "</p>"
  +:+ "<hr>"
  +:+ "</div>".

Definition body_content (rows : list Row) : string :=
  foldl (λ body result, body +:+ body_entry result)
        ("<h4>Found " +:+ pretty (length rows)
           +:+ " recent new matching auctions:</h4>" +:+ "<hr>")
        rows.

(** The dict literal of line 109. *)
Definition record_of (timestamp : string) (result : Row) : PyValue :=
  PyDict (MkDict [ ("title", PyStr (title result));
                   ("date", PyStr (date_str result));
                   ("sent_at", PyStr timestamp) ]).

(** [container[key] = value] for a string [key] (line 109): defined on a
    dict; [TypeError] on every other value. *)
Definition setitem (container : PyValue) (key : string) (value : PyValue) : res PyValue :=
  match container with
  | PyDict d => Ok (PyDict (<[key := value]> d))
  | _ => Raise (Exception TypeError)
  end.

(** Lines 108-109: the records of the rows are stored under their url. *)
Definition mark_sent (timestamp : string) (old_results : PyValue)
    (rows : list Row) : res PyValue :=
  foldl (λ acc result,
           old ← acc;
           setitem old (pdf_url result) (record_of timestamp result))
        (Ok old_results) rows.

(** [format_results_as_html] (lines 62-112). *)
Definition format_results_as_html (env : Env) (rows : list Row) : M bool :=
  match rows with
  | [] => mret false
  | _ :: _ =>
      _ ← write_file_output (env_subject_write env) SUBJECT_FILE (subject_content rows);
      _ ← write_file_output (env_body_write env) BODY_FILE (body_content rows);
      let timestamp := env_timestamp env in
      old_results ← load_sent_results (env_reload_fails env);
      old_results ← lift (mark_sent timestamp old_results rows);
      _ ← save_results (env_store_write env) old_results;
      mret true
  end.

(** [scrape_parking_auctions] (lines 123-181). *)
Definition scrape_parking_auctions (env : Env)
    (search_terms : list (string * string)) : M unit :=
  old_results ← load_sent_results (env_load_fails env);
  two_weeks_ago ← lift (two_weeks_before (env_now env));
  try_except
    (match env_response env with
     | FetchFailed => raise (Exception RequestException)
     | Page None => mret tt
     | Page (Some table) =>
         results ← lift (extract_results search_terms table);
         recent ← lift (select results old_results two_weeks_ago);
         match recent with
         | [] => mret tt
         | _ :: _ => _ ← format_results_as_html env recent; mret tt
         end
     end)
    (λ c, match c with
          | RequestException => sys_exit 1%Z
          | _ => sys_exit 1%Z
          end).

(** [main] (lines 184-200). *)
Definition main (env : Env) : M Z :=
  λ fs, match scrape_parking_auctions env search_terms fs with
        | (Ok _, fs') => (Ok 0%Z, fs')
        | (Raise KeyboardInterrupt, fs') => (Ok 0%Z, fs')
        | (Raise (Exception _), fs') => (Ok 1%Z, fs')
        | (Raise (SystemExit code), fs') => (Raise (SystemExit code), fs')
        end.

(** [sys.exit(main())] (line 203): the exit status of the process and
    the files it leaves. *)
Definition run (env : Env) (fs : FS) : Z * FS :=
  match main env fs with
  | (Ok status, fs') => (status, fs')
  | (Raise (SystemExit code), fs') => (code, fs')
  | (Raise _, fs') => (1%Z, fs')
  end.

End Program.

(** ** The library functions on ASCII text *)

(** [c.lower()] for an ASCII character. *)
Definition lower_char (c : ascii) : ascii :=
  let n := nat_of_ascii c in
  if (65 <=? n)%nat && (n <=? 90)%nat then ascii_of_nat (n + 32) else c.

Fixpoint ascii_lower (s : string) : string :=
  match s with
  | EmptyString => EmptyString
  | String c s' => String (lower_char c) (ascii_lower s')
  end.

(** The ASCII characters for which [c.isspace()] holds. *)
Definition is_space_char (c : ascii) : bool :=
  let n := nat_of_ascii c in
  (9 <=? n)%nat && (n <=? 13)%nat || (28 <=? n)%nat && (n <=? 32)%nat.

Fixpoint lstrip (s : string) : string :=
  match s with
  | EmptyString => EmptyString
  | String c s' => if is_space_char c then lstrip s' else s
  end.

Definition ascii_strip (s : string) : string :=
  String.rev (lstrip (String.rev (lstrip s))).

Definition digit_of (c : ascii) : option Z :=
  let n := nat_of_ascii c in
  if (48 <=? n)%nat && (n <=? 57)%nat then Some (Z.of_nat (n - 48)) else None.

Definition is_dot (c : ascii) : bool := bool_decide (nat_of_ascii c = 46%nat).

(** The directive [%d] followed by a dot: one of [3[0-1]], [[1-2]\d],
    [0[1-9]], [[1-9]] or a space and [[1-9]]. *)
Definition parse_day (s : string) : option (Z * string) :=
  match s with
  | String c1 (String c2 rest) =>
      if is_dot c2 then
        match digit_of c1 with
        | Some d => if (1 <=? d)%Z then Some (d, rest) else None
        | None => None
        end
      else
        match rest with
        | String c3 rest' =>
            if is_dot c3 then
              match digit_of c1, digit_of c2 with
              | Some d1, Some d2 =>
                  if (d1 =? 3)%Z then
                    if (d2 <=? 1)%Z then Some (30 + d2, rest')%Z else None
                  else if (1 <=? d1)%Z && (d1 <=? 2)%Z then Some (10 * d1 + d2, rest')%Z
                  else if (d1 =? 0)%Z && (1 <=? d2)%Z then Some (d2, rest')
                  else None
              | None, Some d2 =>
                  if bool_decide (nat_of_ascii c1 = 32%nat) && (1 <=? d2)%Z
                  then Some (d2, rest') else None
              | _, _ => None
              end
            else None
        | EmptyString => None
        end
  | _ => None
  end.

(** The directive [%m] followed by a dot: [1[0-2]], [0[1-9]] or [[1-9]]. *)
Definition parse_month (s : string) : option (Z * string) :=
  match s with
  | String c1 (String c2 rest) =>
      if is_dot c2 then
        match digit_of c1 with
        | Some d => if (1 <=? d)%Z then Some (d, rest) else None
        | None => None
        end
      else
        match rest with
        | String c3 rest' =>
            if is_dot c3 then
              match digit_of c1, digit_of c2 with
              | Some d1, Some d2 =>
                  if (d1 =? 1)%Z && (d2 <=? 2)%Z then Some (10 + d2, rest')%Z
                  else if (d1 =? 0)%Z && (1 <=? d2)%Z then Some (d2, rest')
                  else None
              | _, _ => None
              end
            else None
        | EmptyString => None
        end
  | _ => None
  end.

(** The directive [%Y] at the end of the text: exactly four digits. *)
Definition parse_year (s : string) : option Z :=
  match s with
  | String c1 (String c2 (String c3 (String c4 EmptyString))) =>
      match digit_of c1, digit_of c2, digit_of c3, digit_of c4 with
      | Some d1, Some d2, Some d3, Some d4 =>
          Some (1000 * d1 + 100 * d2 + 10 * d3 + d4)%Z
      | _, _, _, _ => None
      end
  | _ => None
  end.

Definition is_leap (y : Z) : bool :=
  (y mod 4 =? 0)%Z && (negb (y mod 100 =? 0)%Z || (y mod 400 =? 0)%Z).

Definition days_in_month (y m : Z) : Z :=
  if (m =? 2)%Z then (if is_leap y then 29 else 28)%Z
  else if (m =? 4)%Z || (m =? 6)%Z || (m =? 9)%Z || (m =? 11)%Z then 30%Z
  else 31%Z.

Fixpoint days_before_month_aux (y : Z) (m : nat) : Z :=
  match m with
  | O => 0%Z
  | S m' => (days_before_month_aux y m' + days_in_month y (Z.of_nat m))%Z
  end.

(** Days of year [y] before the first of month [m]. *)
Definition days_before_month (y m : Z) : Z :=
  days_before_month_aux y (Z.to_nat (m - 1)).

(** Days before the first of January of year [y]. *)
Definition days_before_year (y : Z) : Z :=
  let y1 := (y - 1)%Z in
  (y1 * 365 + y1 / 4 - y1 / 100 + y1 / 400)%Z.

(** [datetime(y, m, d)], midnight of that day. *)
Definition datetime_ymd (y m d : Z) : datetime :=
  ((days_before_year y + days_before_month y m + d - 1) * 86400000000)%Z.

Definition ascii_strptime_dmY (s : string) : option datetime :=
  match parse_day s with
  | Some (d, s1) =>
      match parse_month s1 with
      | Some (m, s2) =>
          match parse_year s2 with
          | Some y =>
              if (1 <=? y)%Z && (d <=? days_in_month y m)%Z
              then Some (datetime_ymd y m d) else None
          | None => None
          end
      | None => None
      end
  | None => None
  end.

#[global] Instance ascii_pylib : PyLib := {|
  lower := ascii_lower;
  strip := ascii_strip;
  strptime_dmY := ascii_strptime_dmY;
|}.

(** ** A codec for UTF-8 text

    The text [json.dump] writes for a value with its default settings:
    items separated by a comma and a space, keys from values by a colon
    and a space, the items of a dict in its order, every character of a
    string outside the printable ASCII range escaped.  The reader takes
    JSON text with any white space between its tokens, and the
    constants [NaN] and [Infinity] as [json.load] does.  A float is
    kept as the literal read and written back as such. *)

Definition dquote_char : ascii := ascii_of_nat 34.
Definition backslash_char : ascii := ascii_of_nat 92.

Definition byte_of (c : ascii) : Z := Z.of_nat (nat_of_ascii c).
Definition char_of (b : Z) : ascii := ascii_of_nat (Z.to_nat b).

Definition hex_digit (n : Z) : ascii :=
  if (n <? 10)%Z then char_of (48 + n) else char_of (87 + n).

(** Four hexadecimal digits. *)
Definition hex4 (n : Z) : string :=
  String (hex_digit (n / 4096 mod 16))
    (String (hex_digit (n / 256 mod 16))
       (String (hex_digit (n / 16 mod 16))
          (String (hex_digit (n mod 16)) ""))).

(** The escape [\uXXXX] of a code point, a pair of surrogates above the
    basic plane. *)
Definition escape_code_point (cp : Z) : string :=
  if (cp <? 65536)%Z then "\u" +:+ hex4 cp
  else
    let v := (cp - 65536)%Z in
    "\u" +:+ hex4 (55296 + v / 1024) +:+ "\u" +:+ hex4 (56320 + v mod 1024).

Definition is_continuation (c : ascii) : bool :=
  (128 <=? byte_of c)%Z && (byte_of c <? 192)%Z.

(** The code point a UTF-8 text starts with, and the text after it. *)
Definition decode_utf8 (s : string) : option (Z * string) :=
  match s with
  | EmptyString => None
  | String c0 s1 =>
      let b0 := byte_of c0 in
      if (b0 <? 128)%Z then Some (b0, s1)
      else if (b0 <? 192)%Z then None
      else if (b0 <? 224)%Z then
        match s1 with
        | String c1 s2 =>
            if is_continuation c1
            then Some ((b0 - 192) * 64 + (byte_of c1 - 128), s2)%Z else None
        | _ => None
        end
      else if (b0 <? 240)%Z then
        match s1 with
        | String c1 (String c2 s3) =>
            if is_continuation c1 && is_continuation c2
            then Some ((b0 - 224) * 4096 + (byte_of c1 - 128) * 64
                       + (byte_of c2 - 128), s3)%Z
            else None
        | _ => None
        end
      else if (b0 <? 248)%Z then
        match s1 with
        | String c1 (String c2 (String c3 s4)) =>
            if is_continuation c1 && is_continuation c2 && is_continuation c3
            then Some ((b0 - 240) * 262144 + (byte_of c1 - 128) * 4096
                       + (byte_of c2 - 128) * 64 + (byte_of c3 - 128), s4)%Z
            else None
        | _ => None
        end
      else None
  end.

(** The UTF-8 bytes of a code point. *)
Definition encode_utf8 (cp : Z) : string :=
  if (cp <? 128)%Z then String (char_of cp) ""
  else if (cp <? 2048)%Z then
    String (char_of (192 + cp / 64)) (String (char_of (128 + cp mod 64)) "")
  else if (cp <? 65536)%Z then
    String (char_of (224 + cp / 4096))
      (String (char_of (128 + cp / 64 mod 64)) (String (char_of (128 + cp mod 64)) ""))
  else
    String (char_of (240 + cp / 262144))
      (String (char_of (128 + cp / 4096 mod 64))
         (String (char_of (128 + cp / 64 mod 64))
            (String (char_of (128 + cp mod 64)) ""))).

(** What stands for one character inside a string. *)
Definition json_escape_code_point (cp : Z) : string :=
  if (cp =? 34)%Z then String backslash_char dquote
  else if (cp =? 92)%Z then String backslash_char (String backslash_char "")
  else if (cp =? 8)%Z then "\b"
  else if (cp =? 9)%Z then "\t"
  else if (cp =? 10)%Z then "\n"
  else if (cp =? 12)%Z then "\f"
  else if (cp =? 13)%Z then "\r"
  else if (32 <=? cp)%Z && (cp <? 127)%Z then String (char_of cp) ""
  else escape_code_point cp.

(** The characters of a string escaped one after the other; [fuel]
    bounds their number.  A byte that starts no UTF-8 sequence, which
    no [str] holds, is kept. *)
Fixpoint json_escape_go (fuel : nat) (s : string) : string :=
  match fuel with
  | O => ""
  | S fuel' =>
      match s with
      | EmptyString => ""
      | String c s' =>
          match decode_utf8 s with
          | Some (cp, rest) => json_escape_code_point cp +:+ json_escape_go fuel' rest
          | None => String c (json_escape_go fuel' s')
          end
      end
  end.

Definition json_escape (s : string) : string :=
  json_escape_go (String.length s) s.

Definition json_string (s : string) : string :=
  dquote +:+ json_escape s +:+ dquote.

Fixpoint json_text (v : PyValue) : string :=
  match v with
  | PyNone => "null"
  | PyBool b => if b then "true" else "false"
  | PyInt n => pretty n
  | PyFloat literal => literal
  | PyStr s => json_string s
  | PyList items => "[" +:+ str_join ", " (json_text <$> items) +:+ "]"
  | PyDict d =>
      "{" +:+ str_join ", "
                ((λ item, json_string item.1 +:+ ": " +:+ json_text item.2)
                   <$> dict_items d)
          +:+ "}"
  end.

(** The text after the literal [lit], when the text starts with it. *)
Fixpoint expect (lit s : string) : option string :=
  match lit with
  | EmptyString => Some s
  | String a lit' =>
      match s with
      | String b s' => if decide (a = b) then expect lit' s' else None
      | EmptyString => None
      end
  end.

Definition is_json_space (c : ascii) : bool :=
  let n := nat_of_ascii c in
  (n =? 32)%nat || (n =? 9)%nat || (n =? 10)%nat || (n =? 13)%nat.

Fixpoint skip_space (s : string) : string :=
  match s with
  | EmptyString => EmptyString
  | String c s' => if is_json_space c then skip_space s' else s
  end.

Definition hex_value (c : ascii) : option Z :=
  let n := byte_of c in
  if (48 <=? n)%Z && (n <=? 57)%Z then Some (n - 48)%Z
  else if (97 <=? n)%Z && (n <=? 102)%Z then Some (n - 87)%Z
  else if (65 <=? n)%Z && (n <=? 70)%Z then Some (n - 55)%Z
  else None.

(** The four hexadecimal digits after [\u], and the text after them. *)
Definition read_hex4 (s : string) : option (Z * string) :=
  match s with
  | String h1 (String h2 (String h3 (String h4 rest))) =>
      match hex_value h1, hex_value h2, hex_value h3, hex_value h4 with
      | Some d1, Some d2, Some d3, Some d4 =>
          Some (d1 * 4096 + d2 * 256 + d3 * 16 + d4, rest)%Z
      | _, _, _, _ => None
      end
  | _ => None
  end.

(** The code point of an escape [\u] whose four digits gave [u]: with
    the low surrogate that follows when [u] is a high one. *)
Definition read_code_point (u : Z) (rest : string) : Z * string :=
  if (55296 <=? u)%Z && (u <? 56320)%Z then
    match expect "\u" rest with
    | Some rest1 =>
        match read_hex4 rest1 with
        | Some (low, rest2) =>
            if (56320 <=? low)%Z && (low <? 57344)%Z
            then (65536 + (u - 55296) * 1024 + (low - 56320), rest2)%Z
            else (u, rest)
        | None => (u, rest)
        end
    | None => (u, rest)
    end
  else (u, rest).

(** The character a backslash and [e] stand for, [e] other than [u]. *)
Definition unescape (e : ascii) : option ascii :=
  let n := nat_of_ascii e in
  if (n =? 34)%nat || (n =? 92)%nat || (n =? 47)%nat then Some e
  else if (n =? 98)%nat then Some (ascii_of_nat 8)
  else if (n =? 102)%nat then Some (ascii_of_nat 12)
  else if (n =? 110)%nat then Some (ascii_of_nat 10)
  else if (n =? 114)%nat then Some (ascii_of_nat 13)
  else if (n =? 116)%nat then Some (ascii_of_nat 9)
  else None.

(** A string after its opening quote: its characters and the text after
    the closing quote; [fuel] bounds the length of the text. *)
Fixpoint read_string_body (fuel : nat) (s : string) : option (string * string) :=
  match fuel with
  | O => None
  | S fuel' =>
      match s with
      | EmptyString => None
      | String c s' =>
          if bool_decide (c = dquote_char) then Some (EmptyString, s')
          else if bool_decide (c = backslash_char) then
            match s' with
            | EmptyString => None
            | String e s'' =>
                if (nat_of_ascii e =? 117)%nat then
                  '(u, rest) ← read_hex4 s'';
                  let '(cp, rest') := read_code_point u rest in
                  '(r, after) ← read_string_body fuel' rest';
                  Some (encode_utf8 cp +:+ r, after)
                else
                  c' ← unescape e;
                  '(r, after) ← read_string_body fuel' s'';
                  Some (String c' r, after)
            end
          else if (nat_of_ascii c <? 32)%nat then None
          else
            '(r, after) ← read_string_body fuel' s';
            Some (String c r, after)
      end
  end.

Definition read_string (s : string) : option (string * string) :=
  read_string_body (String.length s) s.

(** The digits a text starts with, and the text after them. *)
Fixpoint take_digits (s : string) : string * string :=
  match s with
  | String c s' =>
      match digit_of c with
      | Some _ => let '(digits, rest) := take_digits s' in (String c digits, rest)
      | None => (EmptyString, s)
      end
  | EmptyString => (EmptyString, s)
  end.

(** The number written by a text of digits. *)
Definition number_of_digits (digits : string) : Z :=
  fold_left (λ acc c, match digit_of c with
                      | Some d => (10 * acc + d)%Z
                      | None => acc
                      end) (list_ascii_of_string digits) 0%Z.

(** The integer part of a number: [0], or a digit other than [0]
    followed by digits. *)
Definition read_integer_part (s : string) : option (string * string) :=
  match s with
  | String c s' =>
      match digit_of c with
      | Some d =>
          if (d =? 0)%Z then Some ("0", s')
          else let '(digits, rest) := take_digits s' in Some (String c digits, rest)
      | None => None
      end
  | EmptyString => None
  end.

(** The fraction of a number, a dot and digits, when the text starts
    with one. *)
Definition read_fraction (s : string) : string * string :=
  match s with
  | String c s' =>
      if (nat_of_ascii c =? 46)%nat then
        match take_digits s' with
        | (EmptyString, _) => ("", s)
        | (digits, rest) => (String c digits, rest)
        end
      else ("", s)
  | EmptyString => ("", s)
  end.

(** The exponent of a number: [e] or [E], a sign if any and digits. *)
Definition read_exponent (s : string) : string * string :=
  match s with
  | String c s' =>
      if (nat_of_ascii c =? 101)%nat || (nat_of_ascii c =? 69)%nat then
        let '(sign, s'') :=
          match s' with
          | String g t =>
              if (nat_of_ascii g =? 43)%nat || (nat_of_ascii g =? 45)%nat
              then (String g "", t) else ("", s')
          | EmptyString => ("", s')
          end in
        match take_digits s'' with
        | (EmptyString, _) => ("", s)
        | (digits, rest) => (String c (sign +:+ digits), rest)
        end
      else ("", s)
  | EmptyString => ("", s)
  end.

(** A number after its sign. *)
Definition read_unsigned (negative : bool) (s : string) : option (PyValue * string) :=
  let sign := if negative then "-" else "" in
  '(digits, s1) ← read_integer_part s;
  let '(fraction, s2) := read_fraction s1 in
  let '(exponent, s3) := read_exponent s2 in
  match fraction, exponent with
  | EmptyString, EmptyString =>
      let n := number_of_digits digits in
      Some (PyInt (if negative then (- n)%Z else n), s3)
  | _, _ => Some (PyFloat (sign +:+ digits +:+ fraction +:+ exponent), s3)
  end.

(** A number, or one of the constants [NaN], [Infinity], [-Infinity]. *)
Definition read_number (s : string) : option (PyValue * string) :=
  match expect "NaN" s, expect "Infinity" s, expect "-Infinity" s with
  | Some rest, _, _ => Some (PyFloat "NaN", rest)
  | _, Some rest, _ => Some (PyFloat "Infinity", rest)
  | _, _, Some rest => Some (PyFloat "-Infinity", rest)
  | None, None, None =>
      match s with
      | String c s' =>
          if (nat_of_ascii c =? 45)%nat then read_unsigned true s'
          else read_unsigned false s
      | EmptyString => None
      end
  end.

(** The values of an array after the first, up to the closing bracket;
    [read] reads one value, [fuel] bounds their number. *)
Fixpoint read_elements (read : string → option (PyValue * string)) (fuel : nat)
    (s : string) : option (list PyValue * string) :=
  match fuel with
  | O => None
  | S fuel' =>
      match skip_space s with
      | String c rest =>
          if (nat_of_ascii c =? 93)%nat then Some ([], rest)
          else if (nat_of_ascii c =? 44)%nat then
            '(v, s1) ← read rest;
            '(l, s2) ← read_elements read fuel' s1;
            Some (v :: l, s2)
          else None
      | EmptyString => None
      end
  end.

(** One item of an object: a key, a colon and a value. *)
Definition read_member (read : string → option (PyValue * string))
    (s : string) : option ((string * PyValue) * string) :=
  s1 ← expect dquote (skip_space s);
  '(k, s2) ← read_string s1;
  s3 ← expect ":" (skip_space s2);
  '(v, s4) ← read s3;
  Some ((k, v), s4).

(** The items of an object after the first, up to the closing brace. *)
Fixpoint read_members (read : string → option (PyValue * string)) (fuel : nat)
    (s : string) : option (list (string * PyValue) * string) :=
  match fuel with
  | O => None
  | S fuel' =>
      match skip_space s with
      | String c rest =>
          if (nat_of_ascii c =? 125)%nat then Some ([], rest)
          else if (nat_of_ascii c =? 44)%nat then
            '(m, s1) ← read_member read rest;
            '(l, s2) ← read_members read fuel' s1;
            Some (m :: l, s2)
          else None
      | EmptyString => None
      end
  end.

(** The dict built from the items of an object in their order: of two
    items with one key the later value counts, at the place of the
    earlier. *)
Definition dict_of (items : list (string * PyValue)) : Dict PyValue :=
  foldl (λ d item, <[item.1 := item.2]> d) ∅ items.

(** One value at the start of a text; [fuel] bounds the depth of
    nesting. *)
Fixpoint read_value (fuel : nat) (s : string) : option (PyValue * string) :=
  match fuel with
  | O => None
  | S fuel' =>
      match skip_space s with
      | EmptyString => None
      | String c rest =>
          let n := nat_of_ascii c in
          if (n =? 123)%nat then
            match skip_space rest with
            | String c' rest' =>
                if (nat_of_ascii c' =? 125)%nat then Some (PyDict ∅, rest')
                else
                  '(m, s1) ← read_member (read_value fuel') rest;
                  '(l, s2) ← read_members (read_value fuel') fuel' s1;
                  Some (PyDict (dict_of (m :: l)), s2)
            | EmptyString => None
            end
          else if (n =? 91)%nat then
            match skip_space rest with
            | String c' rest' =>
                if (nat_of_ascii c' =? 93)%nat then Some (PyList [], rest')
                else
                  '(v, s1) ← read_value fuel' rest;
                  '(l, s2) ← read_elements (read_value fuel') fuel' s1;
                  Some (PyList (v :: l), s2)
            | EmptyString => None
            end
          else if (n =? 34)%nat then
            '(str, s1) ← read_string rest; Some (PyStr str, s1)
          else if (n =? 110)%nat then s1 ← expect "ull" rest; Some (PyNone, s1)
          else if (n =? 116)%nat then s1 ← expect "rue" rest; Some (PyBool true, s1)
          else if (n =? 102)%nat then s1 ← expect "alse" rest; Some (PyBool false, s1)
          else read_number (String c rest)
      end
  end.

(** The value a text stands for: one value and nothing but white space
    after it. *)
Definition read_json_text (s : string) : option PyValue :=
  '(v, rest) ← read_value (S (String.length s)) s;
  match skip_space rest with
  | EmptyString => Some v
  | String _ _ => None
  end.

#[global] Instance utf8_json : JsonCodec := {|
  json_dump := json_text;
  json_load := read_json_text;
|}.

(** ** Notions the specification uses *)

(** [term] occurs in [title] as a case-insensitive substring. *)
Definition occurs_in `{PyLib} (term title : string) : Prop :=
  ∃ pre post, lower title = pre +:+ lower term +:+ post.

(** Both terms of a combination occur in the title. *)
Definition combination_matches `{PyLib} (title : string) (c : string * string) : Prop :=
  occurs_in c.1 title ∧ occurs_in c.2 title.

(** The first cell of an eligible row has no anchor without [href]
    (on such an anchor line 143 raises [KeyError]). *)
Definition well_linked `{PyLib} (columns : Tr) : Prop :=
  match columns with
  | title_col :: _ :: _ => ∃ href, cell_href title_col = Ok href
  | _ => True
  end.

(** The row that the loop of lines 137-160 appends for the cells
    [title_col], [date_col] when some combination matches. *)
Definition row_of_cells `{PyLib} (terms : list (string * string))
    (title_col date_col : Td) (href : option string) : Row :=
  result_row (cell_title title_col) href (strip (td_text date_col))
             (matching_combos (lower (cell_title title_col)) terms).

(** The test of line 154 on a pair of terms. *)
Definition both_in `{PyLib} (title_lower : string) (c : string * string) : bool :=
  str_in (lower c.1) title_lower && str_in (lower c.2) title_lower.

(** The row [r] is the one appended for the cells [columns]. *)
Definition appended_for `{PyLib} (terms : list (string * string)) (columns : Tr)
    (r : Row) : Prop :=
  ∃ title_col date_col rest href,
    columns = title_col :: date_col :: rest ∧
    cell_href title_col = Ok href ∧
    (∃ c, c ∈ terms ∧ combination_matches (cell_title title_col) c) ∧
    r = row_of_cells terms title_col date_col href.

(** [a] may stand before [b] in a list sorted greatest key first. *)
Definition key_ge {A} (key : A → Z) (a b : A) : Prop := (key b ≤ key a)%Z.

(** In the sorted output no row without a parsed date stands before a
    row with one. *)
Definition unparseable_last (l : list Row) : Prop :=
  ∀ i j ri rj, l !! i = Some ri → l !! j = Some rj →
    date ri = None → date rj ≠ None → (j < i)%nat.

(** ** Example data *)

Definition td (text : string) (link : option Anchor) : Td :=
  {| td_text := text; td_a := link |}.

Definition anchor (text href : string) : Anchor :=
  {| a_text := text; a_href := Some href |}.

(** A listing with three rows: the title of the first holds both terms
    of the combination [("Nr. 33", "964B")], the title of the second only
    the first term; the third has a single cell. *)
Definition example_table : Table :=
  {| tbody := Some
       [ [ td "Licitatie Nr. 33 teren parcare 964B"
              (Some (anchor " Licitatie Nr. 33 teren parcare 964B " "/dm/a.pdf"));
           td " 15.01.2026 " None ];
         [ td "Licitatie Nr. 33 teren parcare"
              (Some (anchor "Licitatie Nr. 33 teren parcare" "/dm/b.pdf"));
           td "15.01.2026" None ];
         [ td "Anunturi" None ] ];
     all_tr := [] |}.

Definition example_row : Row :=
  {| title := "Licitatie Nr. 33 teren parcare 964B";
     pdf_url := "https://www.primaria-iasi.ro/dm/a.pdf";
     date_str := "15.01.2026";
     date := Some 63904032000000000%Z;
     matched_terms := ["('Nr. 33', '964B')"] |}.

(** A listing whose only row matches and has no anchor in its first cell. *)
Definition table_without_anchor : Table :=
  {| tbody := None;
     all_tr := [ [ td "Parcare Tudor Neculai 971A" None; td "02.02.2026" None ] ] |}.

(** The subject line the specification gives for a single row matched
    by [("Nr. 33", "964B")]: the terms are in double quotes. *)
Definition spec_subject_line : string :=
  "[(" +:+ dquote +:+ "Nr. 33" +:+ dquote +:+ ", "
       +:+ dquote +:+ "964B" +:+ dquote +:+ ")]".

(** A matched row of the listing with the given text in its date cell. *)
Definition row_dated (date_str : string) : Row :=
  result_row ("Licitatie Nr. 33 parcare 964B din " +:+ date_str)
             (Some ("/dm/" +:+ date_str)) date_str ["('Nr. 33', '964B')"].

(** ** Example runs *)

(** A run on 2026-01-20 at 10:00 on the example listing, all writes
    succeeding. *)
Definition example_env : Env :=
  {| env_now := (datetime_ymd 2026 1 20 + 10 * 3600 * 1000000)%Z;
     env_timestamp := "20.01.2026 12:00:00";
     env_response := Page (Some example_table);
     env_load_fails := false;
     env_reload_fails := false;
     env_subject_write := WriteOk;
     env_body_write := WriteOk;
     env_store_write := WriteOk |}.

(** The same run when the body file cannot be opened for writing. *)
Definition body_failure_env : Env :=
  {| env_now := env_now example_env;
     env_timestamp := env_timestamp example_env;
     env_response := env_response example_env;
     env_load_fails := false;
     env_reload_fails := false;
     env_subject_write := WriteOk;
     env_body_write := WriteFail None;
     env_store_write := WriteOk |}.

(** The same run when the store file cannot be opened for writing. *)
Definition store_failure_env : Env :=
  {| env_now := env_now example_env;
     env_timestamp := env_timestamp example_env;
     env_response := env_response example_env;
     env_load_fails := false;
     env_reload_fails := false;
     env_subject_write := WriteOk;
     env_body_write := WriteOk;
     env_store_write := WriteFail None |}.

(** A run in which the fetch fails, and one whose page has no table. *)
Definition fetch_failed_env : Env :=
  {| env_now := env_now example_env;
     env_timestamp := env_timestamp example_env;
     env_response := FetchFailed;
     env_load_fails := false;
     env_reload_fails := false;
     env_subject_write := WriteOk;
     env_body_write := WriteOk;
     env_store_write := WriteOk |}.

Definition missing_table_env : Env :=
  {| env_now := env_now example_env;
     env_timestamp := env_timestamp example_env;
     env_response := Page None;
     env_load_fails := false;
     env_reload_fails := false;
     env_subject_write := WriteOk;
     env_body_write := WriteOk;
     env_store_write := WriteOk |}.

(** A run on the same listing one hour after [example_env]. *)
Definition later_env : Env :=
  {| env_now := (env_now example_env + 3600 * 1000000)%Z;
     env_timestamp := "20.01.2026 13:00:00";
     env_response := env_response example_env;
     env_load_fails := false;
     env_reload_fails := false;
     env_subject_write := WriteOk;
     env_body_write := WriteOk;
     env_store_write := WriteOk |}.

(** A store that records one url notified earlier. *)
Definition earlier_store : Dict PyValue :=
  MkDict [ ("https://www.primaria-iasi.ro/dm/old.pdf",
            PyDict (MkDict [ ("title", PyStr "Licitatie Nr. 33 parcare 964B");
                             ("date", PyStr "01.12.2025");
                             ("sent_at", PyStr "02.12.2025 08:00:00") ])) ].

Definition earlier_files : gmap string string :=
  {[ RESULTS_FILE := json_text (PyDict earlier_store) ]}.



(** ** Notions the further properties use *)

(** The row, if any, that one visit of the loop of lines 137-160 appends
    for the cells [columns]: none for fewer than two cells, none when no
    combination matches (and none when line 143 raises). *)
Definition matched_row `{PyLib} (terms : list (string * string)) (columns : Tr) : option Row :=
  match columns with
  | title_col :: date_col :: _ =>
      match cell_href title_col with
      | Ok href =>
          if bool_decide (matching_combos (lower (cell_title title_col)) terms = [])
          then None
          else Some (row_of_cells terms title_col date_col href)
      | Raise _ => None
      end
  | _ => None
  end.

(** The first cell of an eligible row holds an anchor without [href]. *)
Definition broken_link (columns : Tr) : Prop :=
  ∃ title_col date_col rest link,
    columns = title_col :: date_col :: rest ∧
    td_a title_col = Some link ∧ a_href link = None.

(** The heading of the body (lines 79-80) and its entries one after the
    other (lines 82-98). *)
Definition body_header (n : nat) : string :=
  "<h4>Found " +:+ pretty n +:+ " recent new matching auctions:</h4>" +:+ "<hr>".

Fixpoint body_entries (rows : list Row) : string :=
  match rows with
  | [] => ""
  | r :: rows' => body_entry r +:+ body_entries rows'
  end.

(** The files a run may write. *)
Definition written_by_run (f : string) : Prop :=
  f = SUBJECT_FILE ∨ f = BODY_FILE ∨ f = RESULTS_FILE.

(** [fs'] differs from [fs] at most in the three files of the run, and
    holds every file [fs] holds. *)
Definition touches_own_files (fs fs' : gmap string string) : Prop :=
  (∀ f, ¬ written_by_run f → fs' !! f = fs !! f) ∧
  (∀ f, is_Some (fs !! f) → is_Some (fs' !! f)).

(** A listing whose second row holds an anchor without [href]. *)
Definition table_with_broken_link : Table :=
  {| tbody := None;
     all_tr :=
       [ [ td "Licitatie Nr. 33 teren parcare 964B"
              (Some (anchor "Licitatie Nr. 33 teren parcare 964B" "/dm/a.pdf"));
           td "15.01.2026" None ];
         [ td "Anunt" (Some {| a_text := "Anunt"; a_href := None |});
           td "16.01.2026" None ] ] |}.

Definition broken_link_env : Env :=
  {| env_now := env_now example_env;
     env_timestamp := env_timestamp example_env;
     env_response := Page (Some table_with_broken_link);
     env_load_fails := false;
     env_reload_fails := false;
     env_subject_write := WriteOk;
     env_body_write := WriteOk;
     env_store_write := WriteOk |}.

(** The run of [example_env] when the store cannot be read again at
    line 107. *)
Definition reload_failure_env : Env :=
  {| env_now := env_now example_env;
     env_timestamp := env_timestamp example_env;
     env_response := env_response example_env;
     env_load_fails := false;
     env_reload_fails := true;
     env_subject_write := WriteOk;
     env_body_write := WriteOk;
     env_store_write := WriteOk |}.

(** A run four weeks after [example_env]: its row is no longer recent. *)
Definition month_later_env : Env :=
  {| env_now := (env_now example_env + timedelta_days 28)%Z;
     env_timestamp := "17.02.2026 12:00:00";
     env_response := env_response example_env;
     env_load_fails := false;
     env_reload_fails := false;
     env_subject_write := WriteOk;
     env_body_write := WriteOk;
     env_store_write := WriteOk |}.

(** ** Notions on the loaded store *)

(** The values on which the membership test of line 165 is defined. *)
Definition iterable (v : PyValue) : bool :=
  match v with
  | PyDict _ | PyList _ | PyStr _ => true
  | _ => false
  end.

(** The values on which the item assignment of line 109 is defined. *)
Definition is_dict (v : PyValue) : bool :=
  match v with
  | PyDict _ => true
  | _ => false
  end.

(** The test of line 165 finds the url in the loaded value. *)
Definition known_url (old_results : PyValue) (url : string) : bool :=
  match contains old_results url with
  | Ok b => b
  | Raise _ => false
  end.

(** A dict after the loop of lines 108-109 has run on it. *)
Definition with_records (timestamp : string) (old_results : Dict PyValue)
    (rows : list Row) : Dict PyValue :=
  foldl (λ d result, <[pdf_url result := record_of timestamp result]> d) old_results rows.

(** The files once the subject and the body of [rows] are written
    (lines 76 and 100). *)
Definition files_after_artifacts (rows : list Row) (fs : gmap string string) :
    gmap string string :=
  <[BODY_FILE := body_content rows]> (<[SUBJECT_FILE := subject_content rows]> fs).

(** The files once [save_results] has run on [fs] with [text] to write
    (lines 54-60). *)
Definition files_after_store (o : write_outcome) (text : string)
    (fs : gmap string string) : gmap string string :=
  match o with
  | WriteOk => <[RESULTS_FILE := text]> fs
  | WriteFail None => fs
  | WriteFail (Some junk) => <[RESULTS_FILE := junk]> fs
  end.

(** * Properties *)

(** ** Strings *)

Lemma append_nil_l (s : string) : "" +:+ s = s.
Proof. reflexivity. Qed.

Lemma append_cons (c : ascii) (a b : string) : String c a +:+ b = String c (a +:+ b).
Proof. reflexivity. Qed.

Lemma append_assoc (a b c : string) : (a +:+ b) +:+ c = a +:+ (b +:+ c).
Proof. induction a as [|x a IH]; [done|]. by rewrite !append_cons, IH. Qed.

Lemma append_empty_r (a : string) : a +:+ "" = a.
Proof. induction a as [|x a IH]; [done|]. by rewrite append_cons, IH. Qed.

Lemma startswith_spec (p s : string) :
  startswith p s = true ↔ ∃ post, s = p +:+ post.
Proof.
  revert s. induction p as [|a p IH]; intros s; simpl.
  - split; [intros _; by exists s | done].
  - destruct s as [|b s].
    + split; [done | intros [post Hp]; rewrite append_cons in Hp; discriminate].
    + setoid_rewrite append_cons. case_decide as Hab.
      * subst b. rewrite IH. split; intros [post Hp]; exists post; congruence.
      * split; [done | intros [post Hp]; congruence].
Qed.

Lemma str_in_spec (needle hay : string) :
  str_in needle hay = true ↔ ∃ pre post, hay = pre +:+ needle +:+ post.
Proof.
  split.
  - induction hay as [|c hay IH]; simpl; rewrite orb_true_iff.
    + intros [Hs | ?]; [|done]. apply startswith_spec in Hs as [post Hp].
      by exists "", post.
    + intros [Hs | Hin].
      * apply startswith_spec in Hs as [post Hp]. by exists "", post.
      * destruct (IH Hin) as (pre & post & ->). by exists (String c pre), post.
  - intros (pre & post & ->). induction pre as [|c pre IH].
    + rewrite append_nil_l. destruct needle as [|a needle]; [by destruct post|].
      rewrite append_cons. cbn [str_in]. apply orb_true_iff. left.
      rewrite <- append_cons. apply startswith_spec. by eexists.
    + rewrite append_cons. cbn [str_in]. apply orb_true_iff. by right.
Qed.

(** The empty string is found in every string. *)
Lemma str_in_empty (hay : string) : str_in "" hay = true.
Proof. by destruct hay. Qed.

Lemma elem_of_List_filter {A} (f : A → bool) (l : list A) (x : A) :
  x ∈ List.filter f l ↔ x ∈ l ∧ f x = true.
Proof. rewrite !list_elem_of_In. apply filter_In. Qed.

(** ** The matcher *)

Section Matcher.
Context `{PyLib}.

Lemma both_in_spec (title : string) (c : string * string) :
  both_in (lower title) c = true ↔ combination_matches title c.
Proof.
  unfold both_in, combination_matches, occurs_in.
  by rewrite andb_true_iff, !str_in_spec.
Qed.

(** The loop of lines 148-155 keeps, in the order of the configuration,
    the labels of the combinations that pass the test. *)
Lemma matching_combos_filter (title_lower : string) (terms : list (string * string)) :
  matching_combos title_lower terms =
  (λ c, combo_label c.1 c.2) <$> List.filter (both_in title_lower) terms.
Proof.
  unfold matching_combos.
  enough (Hacc : ∀ acc,
    foldl (λ combos '(term1, term2),
             if str_in (lower term1) title_lower && str_in (lower term2) title_lower
             then combos ++ [combo_label term1 term2] else combos) acc terms
    = acc ++ ((λ c, combo_label c.1 c.2) <$> List.filter (both_in title_lower) terms))
    by apply (Hacc []).
  induction terms as [|[t1 t2] terms IH]; intros acc; simpl.
  - by rewrite app_nil_r.
  - rewrite IH. unfold both_in at 2. simpl.
    destruct (str_in (lower t1) title_lower && str_in (lower t2) title_lower); simpl.
    + by rewrite <- List.app_assoc.
    + done.
Qed.

Lemma matching_combos_nonempty (title : string) (terms : list (string * string)) :
  matching_combos (lower title) terms ≠ [] ↔
  ∃ c, c ∈ terms ∧ combination_matches title c.
Proof.
  rewrite matching_combos_filter. split.
  - intros Hne.
    destruct (List.filter (both_in (lower title)) terms) as [|c l] eqn:Hf; [done|].
    exists c. rewrite <- both_in_spec. apply elem_of_List_filter.
    rewrite Hf. apply list_elem_of_here.
  - intros (c & Hc & Hm). apply both_in_spec in Hm.
    assert (Hin : c ∈ List.filter (both_in (lower title)) terms)
      by by apply elem_of_List_filter.
    destruct (List.filter _ terms); [by apply elem_of_nil in Hin | done].
Qed.

(** A label is produced exactly for the matching combinations. *)
Lemma elem_of_matching_combos (title label : string) (terms : list (string * string)) :
  label ∈ matching_combos (lower title) terms ↔
  ∃ c, c ∈ terms ∧ combination_matches title c ∧ label = combo_label c.1 c.2.
Proof.
  rewrite matching_combos_filter, list_elem_of_fmap. split.
  - intros (c & -> & Hc). apply elem_of_List_filter in Hc as [Hc Hb].
    exists c. by rewrite <- both_in_spec.
  - intros (c & Hc & Hm & ->). exists c. split; [done|].
    apply elem_of_List_filter. by rewrite both_in_spec.
Qed.

(** What one visit of the loop body does to [results]. *)
Lemma visit_row_cells terms results title_col date_col rest href :
  cell_href title_col = Ok href →
  visit_row terms results (title_col :: date_col :: rest) =
  Ok (if bool_decide (matching_combos (lower (cell_title title_col)) terms = [])
      then results
      else results ++ [row_of_cells terms title_col date_col href]).
Proof.
  intros Hh. unfold visit_row, row_of_cells. rewrite Hh. simpl.
  by destruct (matching_combos _ terms).
Qed.

Lemma visit_row_short terms results columns :
  (length columns < 2)%nat → visit_row terms results columns = Ok results.
Proof. destruct columns as [|? [|? ?]]; simpl; [done | done | lia]. Qed.

Lemma extract_loop terms (trs : list Tr) (acc : list Row) :
  Forall well_linked trs →
  ∃ results,
    foldl (λ acc columns, results ← acc; visit_row terms results columns) (Ok acc) trs
      = Ok results ∧
    ∀ r, r ∈ results ↔ r ∈ acc ∨ ∃ columns, columns ∈ trs ∧ appended_for terms columns r.
Proof.
  intros Hwl. revert acc. induction Hwl as [|columns trs Hc _ IH]; intros acc.
  - exists acc. split; [done|]. intros r. split; [by left|].
    intros [? | (? & Hin & _)]; [done | by apply elem_of_nil in Hin].
  - cbn [foldl].
    assert (Hstep : ∃ acc', (results ← Ok acc; visit_row terms results columns) = Ok acc' ∧
              ∀ r, r ∈ acc' ↔ r ∈ acc ∨ appended_for terms columns r).
    { destruct columns as [|title_col [|date_col rest]].
      - exists acc. split; [done|]. intros r. split; [by left|].
        intros [? | (? & ? & ? & ? & ? & _)]; done.
      - exists acc. split; [done|]. intros r. split; [by left|].
        intros [? | (? & ? & ? & ? & ? & _)]; done.
      - destruct Hc as [href Hh].
        eexists. split; [exact (visit_row_cells terms acc _ _ rest href Hh)|].
        intros r. case_bool_decide as Hm.
        + split; [by left|]. intros [? | (tc & dc & rs & h & Heq & _ & Hex & _)]; [done|].
          simplify_eq. apply matching_combos_nonempty in Hex. done.
        + rewrite elem_of_app, list_elem_of_singleton. split.
          * intros [? | ->]; [by left | right].
            exists title_col, date_col, rest, href.
            by rewrite <- matching_combos_nonempty.
          * intros [? | (tc & dc & rs & h & Heq & Hh' & _ & ->)]; [by left | right].
            simplify_eq. congruence. }
    destruct Hstep as (acc' & -> & Hacc').
    destruct (IH acc') as (results & -> & Hres).
    exists results. split; [done|]. intros r. rewrite Hres, Hacc'. split.
    + intros [[? | Ha] | (cs & Hin & Ha)]; [by left | right.. ].
      * exists columns. split; [apply list_elem_of_here | done].
      * exists cs. split; [by apply list_elem_of_further | done].
    + intros [? | (cs & Hin & Ha)]; [by left; left|].
      apply elem_of_cons in Hin as [-> | Hin]; [by left; right | right; eauto].
Qed.

End Matcher.

(** ** Claims on the matcher and the subject line *)

(** C1. For every listing whose eligible rows can be read and every list
    of search combinations, the matcher returns a list [results] such
    that: the row built from a table row with at least two cells is in
    [results] iff the title of that table row holds, as case-insensitive
    substrings, both terms of at least one combination; [results] has no
    other rows; and every row of [results] has a non-empty
    [matched_terms].  A row that matches no combination is thus not in
    [results], the list the later filters work on. *)
Theorem matcher_output_iff `{PyLib} (terms : list (string * string)) (table : Table) :
  Forall well_linked (table_rows table) →
  ∃ results,
    extract_results terms table = Ok results ∧
    (∀ title_col date_col rest href,
       (title_col :: date_col :: rest) ∈ table_rows table →
       cell_href title_col = Ok href →
       (row_of_cells terms title_col date_col href ∈ results ↔
        ∃ c, c ∈ terms ∧ combination_matches (cell_title title_col) c)) ∧
    (∀ r, r ∈ results ↔
       ∃ title_col date_col rest href,
         (title_col :: date_col :: rest) ∈ table_rows table ∧
         cell_href title_col = Ok href ∧
         (∃ c, c ∈ terms ∧ combination_matches (cell_title title_col) c) ∧
         r = row_of_cells terms title_col date_col href) ∧
    (∀ r, r ∈ results → matched_terms r ≠ []).
Proof.
  intros Hwl. unfold extract_results.
  destruct (extract_loop terms (table_rows table) [] Hwl) as (results & Hres & Hiff).
  assert (Hchar : ∀ r, r ∈ results ↔
       ∃ title_col date_col rest href,
         (title_col :: date_col :: rest) ∈ table_rows table ∧
         cell_href title_col = Ok href ∧
         (∃ c, c ∈ terms ∧ combination_matches (cell_title title_col) c) ∧
         r = row_of_cells terms title_col date_col href).
  { intros r. rewrite Hiff. split.
    - intros [Hnil | (columns & Hin & tc & dc & rest & href & -> & Hh & Hm & ->)].
      + by apply elem_of_nil in Hnil.
      + by exists tc, dc, rest, href.
    - intros (tc & dc & rest & href & Hin & Hh & Hm & ->). right.
      exists (tc :: dc :: rest). split; [done|]. by exists tc, dc, rest, href. }
  exists results. split; [done|]. split; [|split; [done|]].
  - intros tc dc rest href Hin Hh. rewrite Hchar. split.
    + intros (tc' & dc' & rest' & href' & _ & _ & Hm & Heq).
      apply (f_equal title) in Heq. simpl in Heq. by rewrite Heq.
    + intros Hm. by exists tc, dc, rest, href.
  - intros r Hr. apply Hchar in Hr as (tc & dc & rest & href & _ & _ & Hm & ->).
    simpl. by apply matching_combos_nonempty.
Qed.

Lemma matcher_output_iff_witness :
  ∃ results,
    extract_results search_terms example_table = Ok results ∧
    (∀ r, r ∈ results → matched_terms r ≠ []).
Proof.
  destruct (matcher_output_iff search_terms example_table)
    as (results & Hres & _ & _ & Hne).
  { repeat constructor; by eexists. }
  by exists results.
Defined.

(** On the example listing only the row holding both terms is kept: the
    row with the first term alone is dropped. *)
Example extract_example_table :
  extract_results search_terms example_table = Ok [example_row].
Proof. vm_compute. reflexivity. Qed.

(** C10. The containment test finds the empty string in every title
    (the lower-case form of the empty string being empty).  So a
    combination with an empty term matches every title that holds its
    other term, and the combination of two empty terms matches every
    title: the label of such a combination is among the matched ones. *)
Theorem empty_term_matches `{PyLib} (terms : list (string * string)) (title term : string) :
  lower "" = "" →
  (∀ hay, str_in (lower "") hay = true) ∧
  ((term, "") ∈ terms → occurs_in term title →
     combo_label term "" ∈ matching_combos (lower title) terms) ∧
  (("", term) ∈ terms → occurs_in term title →
     combo_label "" term ∈ matching_combos (lower title) terms) ∧
  (("", "") ∈ terms → combo_label "" "" ∈ matching_combos (lower title) terms).
Proof.
  intros Hlower.
  assert (Hempty : occurs_in "" title).
  { exists "", (lower title). by rewrite Hlower. }
  split; [|split; [|split]].
  - intros hay. rewrite Hlower. apply str_in_empty.
  - intros Hin Hocc. apply elem_of_matching_combos. by exists (term, "").
  - intros Hin Hocc. apply elem_of_matching_combos. by exists ("", term).
  - intros Hin. apply elem_of_matching_combos. by exists ("", "").
Qed.

Lemma empty_term_matches_witness :
  combo_label "Nr. 33" "" ∈
    matching_combos (lower "Licitatie NR. 33 teren") [("Nr. 33", ""); ("", "")] ∧
  combo_label "" "" ∈
    matching_combos (lower "Licitatie NR. 33 teren") [("Nr. 33", ""); ("", "")].
Proof.
  pose proof (empty_term_matches [("Nr. 33", ""); ("", "")]
                "Licitatie NR. 33 teren" "Nr. 33" eq_refl) as (_ & H1 & _ & H3).
  split.
  - apply H1; [by left|]. by exists "licitatie ", " teren".
  - apply H3. right. by left.
Defined.

(** The labels collected for the subject are those of all rows. *)
Lemma elem_of_all_matched_terms (rows : list Row) (label : string) :
  label ∈ all_matched_terms rows ↔ ∃ r, r ∈ rows ∧ label ∈ matched_terms r.
Proof.
  unfold all_matched_terms.
  enough (Hacc : ∀ s : gset string,
    label ∈ foldl (λ s r, s ∪ list_to_set (matched_terms r)) s rows ↔
    label ∈ s ∨ ∃ r, r ∈ rows ∧ label ∈ matched_terms r).
  { rewrite Hacc. split; [intros [Hs | ?]; [set_solver | done] | by right]. }
  induction rows as [|r rows IH]; intros s; simpl.
  - split; [by left | intros [? | (? & Hin & _)]; [done | by apply elem_of_nil in Hin]].
  - rewrite IH, elem_of_union, elem_of_list_to_set. split.
    + intros [[? | ?] | (r' & Hin & Hl)]; [by left | right.. ].
      * exists r. split; [apply list_elem_of_here | done].
      * exists r'. split; [by apply list_elem_of_further | done].
    + intros [? | (r' & Hin & Hl)]; [by left; left|].
      apply elem_of_cons in Hin as [-> | Hin]; [by left; right | right; eauto].
Qed.

(** [sorted] lists the elements of a set once each, in increasing
    lexicographic order. *)
Lemma sorted_spec (s : gset string) :
  StronglySorted String.le (sorted s) ∧ NoDup (sorted s) ∧
  ∀ x, x ∈ sorted s ↔ x ∈ s.
Proof.
  unfold sorted. split; [|split].
  - apply Sorted_StronglySorted; [apply _|]. apply Sorted_merge_sort, _.
  - rewrite merge_sort_Permutation. apply NoDup_elements.
  - intros x. by rewrite merge_sort_Permutation, elem_of_elements.
Qed.

(** C3, as the code has it.  The label the matcher appends for a matched
    combination is an opening parenthesis, the two terms each between
    single quotes and separated by a comma and a space, and a closing
    parenthesis.  The subject of a single row whose only matched
    combination is [("Nr. 33", "964B")] is [[('Nr. 33', '964B')]]; in
    general the subject is, between square brackets, the labels of all
    rows, each once, in increasing order, joined by a comma and a space. *)
Theorem subject_of_labels `{PyLib} :
  (∀ title terms label,
     label ∈ matching_combos (lower title) terms ↔
     ∃ term1 term2, (term1, term2) ∈ terms ∧
       combination_matches title (term1, term2) ∧
       label = "('" +:+ term1 +:+ "', '" +:+ term2 +:+ "')") ∧
  (∀ row, matched_terms row = [combo_label "Nr. 33" "964B"] →
     subject_content [row] = "[('Nr. 33', '964B')]") ∧
  (∀ rows, ∃ labels,
     subject_content rows = "[" +:+ str_join ", " labels +:+ "]" ∧
     StronglySorted String.le labels ∧ NoDup labels ∧
     ∀ label, label ∈ labels ↔ ∃ r, r ∈ rows ∧ label ∈ matched_terms r).
Proof.
  split; [|split].
  - intros title terms label. rewrite elem_of_matching_combos. split.
    + intros ([t1 t2] & Hin & Hm & ->). by exists t1, t2.
    + intros (t1 & t2 & Hin & Hm & ->). by exists (t1, t2).
  - intros row Hrow. unfold subject_content, all_matched_terms. simpl.
    rewrite Hrow. vm_compute. reflexivity.
  - intros rows. exists (sorted (all_matched_terms rows)).
    destruct (sorted_spec (all_matched_terms rows)) as (Hs & Hn & Hm).
    split; [done|]. split; [done|]. split; [done|].
    intros label. by rewrite Hm, elem_of_all_matched_terms.
Qed.

Lemma subject_of_labels_witness :
  subject_content [example_row] = "[('Nr. 33', '964B')]".
Proof.
  destruct (@subject_of_labels ascii_pylib) as (_ & Hone & _).
  apply Hone. reflexivity.
Defined.

(** C3 as stated fails: the row of the example listing is matched by
    [("Nr. 33", "964B")] only, and its subject is not the line of the
    specification, in which the terms are in double quotes. *)
Lemma subject_not_double_quoted :
  extract_results search_terms example_table = Ok [example_row] ∧
  matched_terms example_row = [combo_label "Nr. 33" "964B"] ∧
  subject_content [example_row] ≠ spec_subject_line.
Proof. split; [|split]; [by vm_compute | by vm_compute |]. by vm_compute. Qed.

(** ** The url of a row *)

(** The url of an appended row is the base url followed by what line 143
    found: the [href] of the anchor, or [None] printed as text. *)
Lemma row_of_cells_pdf_url `{PyLib} terms title_col date_col href :
  pdf_url (row_of_cells terms title_col date_col href) = base_url +:+ fstr_opt href.
Proof. reflexivity. Qed.

Lemma cell_href_anchor `{PyLib} (title_col : Td) (link : Anchor) (href : string) :
  td_a title_col = Some link → a_href link = Some href →
  cell_href title_col = Ok (Some href).
Proof. intros Ha Hh. unfold cell_href. by rewrite Ha, Hh. Qed.

Lemma cell_href_no_anchor `{PyLib} (title_col : Td) :
  td_a title_col = None → cell_href title_col = Ok None.
Proof. intros Ha. unfold cell_href. by rewrite Ha. Qed.

(** C4, what the code does.  With an anchor the url is the base url
    followed by its [href]; without an anchor the row is kept and its url
    is the base url followed by the text [None], not an absent value. *)
Theorem detail_url_of_row :
  extract_results search_terms example_table = Ok [example_row] ∧
  pdf_url example_row = base_url +:+ "/dm/a.pdf" ∧
  ∃ row, extract_results search_terms table_without_anchor = Ok [row] ∧
         pdf_url row = "https://www.primaria-iasi.roNone".
Proof.
  split; [by vm_compute|]. split; [by vm_compute|].
  eexists. split; [by vm_compute | reflexivity].
Qed.

(** ** Sorting by date *)

Section Sorting.
Context {A : Type} (key : A → Z).

Lemma insert_reverse_Permutation (x : A) (l : list A) :
  insert_reverse key x l ≡ₚ x :: l.
Proof.
  induction l as [|y l IH]; simpl; [done|].
  destruct (key y <=? key x)%Z; [done|].
  rewrite IH. apply Permutation_swap.
Qed.

Lemma sort_reverse_Permutation (l : list A) : sort_reverse key l ≡ₚ l.
Proof.
  induction l as [|x l IH]; simpl; [done|].
  by rewrite insert_reverse_Permutation, IH.
Qed.

Lemma insert_reverse_sorted (x : A) (l : list A) :
  StronglySorted (key_ge key) l → StronglySorted (key_ge key) (insert_reverse key x l).
Proof.
  induction 1 as [|y l Hl IH Hy]; simpl.
  - by repeat constructor.
  - destruct (key y <=? key x)%Z eqn:Hle.
    + apply Z.leb_le in Hle. constructor; [by constructor|].
      constructor; [done|].
      eapply Forall_impl; [exact Hy|]. unfold key_ge. intros z Hz. lia.
    + apply Z.leb_gt in Hle. constructor; [done|].
      rewrite insert_reverse_Permutation. constructor; [|done].
      unfold key_ge. lia.
Qed.

Lemma sort_reverse_sorted (l : list A) : StronglySorted (key_ge key) (sort_reverse key l).
Proof.
  induction l as [|x l IH]; simpl; [constructor|].
  by apply insert_reverse_sorted.
Qed.

(** The sort is stable: the elements of one key keep their order. *)
Lemma insert_reverse_stable (k : Z) (x : A) (l : list A) :
  List.filter (λ y, key y =? k)%Z (insert_reverse key x l) =
  List.filter (λ y, key y =? k)%Z (x :: l).
Proof.
  induction l as [|y l IH]; [done|].
  cbn [insert_reverse]. destruct (key y <=? key x)%Z eqn:Hle; [done|].
  apply Z.leb_gt in Hle. cbn [List.filter] in *. rewrite IH.
  destruct (key x =? k)%Z eqn:Hx, (key y =? k)%Z eqn:Hy; try done.
  apply Z.eqb_eq in Hx, Hy. lia.
Qed.

Lemma sort_reverse_stable (k : Z) (l : list A) :
  List.filter (λ y, key y =? k)%Z (sort_reverse key l) =
  List.filter (λ y, key y =? k)%Z l.
Proof.
  induction l as [|x l IH]; [done|].
  cbn [sort_reverse foldr]. rewrite insert_reverse_stable.
  cbn [List.filter]. fold (sort_reverse key l). by rewrite IH.
Qed.

Lemma StronglySorted_lookup_lt (R : relation A) (l : list A) (i j : nat) (a b : A) :
  StronglySorted R l → l !! i = Some a → l !! j = Some b → (i < j)%nat → R a b.
Proof.
  intros Hs. revert i j. induction Hs as [|x l Hl IH Hx]; intros i j Hi Hj Hij.
  - done.
  - destruct j as [|j]; [lia|]. destruct i as [|i]; simpl in *.
    + simplify_eq. rewrite Forall_forall in Hx. apply Hx.
      by eapply list_elem_of_lookup_2.
    + apply (IH i j); [done | done | lia].
Qed.

End Sorting.

(** C5, as the code has it.  Step 1 is a stable sort by date, latest
    first, in which a row without a parsed date counts as dated
    0001-01-01, the least date: the output is a rearrangement of the
    input, its keys never increase, rows of equal key keep the order of
    the input, and a row without a parsed date comes after every row
    dated later than 0001-01-01.  Rows dated 01.01.2026, 15.01.2026 and
    one without a parsed date come out as 15.01.2026, 01.01.2026 and the
    row without a date. *)
Theorem sort_by_date_descending (results : list Row) :
  let sorted := sort_reverse sort_key results in
  sorted ≡ₚ results ∧
  StronglySorted (λ a b, (sort_key b ≤ sort_key a)%Z) sorted ∧
  (∀ k, List.filter (λ r, sort_key r =? k)%Z sorted =
        List.filter (λ r, sort_key r =? k)%Z results) ∧
  (∀ r, date r = None → sort_key r = datetime_min) ∧
  (∀ i j ri rj d, sorted !! i = Some ri → sorted !! j = Some rj →
     date ri = None → date rj = Some d → (datetime_min < d)%Z → (j < i)%nat) ∧
  sort_reverse sort_key [row_dated "01.01.2026"; row_dated "15.01.2026"; row_dated "n/a"]
    = [row_dated "15.01.2026"; row_dated "01.01.2026"; row_dated "n/a"].
Proof.
  intros sorted.
  pose proof (sort_reverse_sorted sort_key results) as Hs.
  split; [apply sort_reverse_Permutation|]. split; [exact Hs|].
  split; [intros k; apply sort_reverse_stable|].
  split; [intros r Hr; unfold sort_key; by rewrite Hr|].
  split; [|by vm_compute].
  intros i j ri rj d Hi Hj Hri Hrj Hd.
  destruct (decide (j < i)%nat) as [|Hge]; [done | exfalso].
  assert (Hne : i ≠ j) by (intros ->; congruence).
  assert (Hlt : (i < j)%nat) by lia.
  pose proof (StronglySorted_lookup_lt _ _ _ _ _ _ Hs Hi Hj Hlt) as Hk.
  unfold key_ge, sort_key in Hk. rewrite Hri, Hrj in Hk. lia.
Qed.

(** C5 as stated fails: a row without a parsed date that precedes, in
    the input, a row dated 01.01.0001 still precedes it after the sort. *)
Lemma unparseable_not_always_last :
  date (row_dated "n/a") = None ∧
  date (row_dated "01.01.0001") = Some datetime_min ∧
  sort_reverse sort_key [row_dated "n/a"; row_dated "01.01.0001"]
    = [row_dated "n/a"; row_dated "01.01.0001"] ∧
  ¬ unparseable_last (sort_reverse sort_key [row_dated "n/a"; row_dated "01.01.0001"]).
Proof.
  split; [by vm_compute|]. split; [by vm_compute|]. split; [by vm_compute|].
  intros Hlast.
  specialize (Hlast 0%nat 1%nat (row_dated "n/a") (row_dated "01.01.0001")).
  assert (Hlt : (1 < 0)%nat); [|lia].
  apply Hlast; by vm_compute.
Qed.

(** ** The deduplication and recency filter *)

Lemma is_recent_spec (two_weeks_ago : Z) (r : Row) :
  is_recent two_weeks_ago r = true ↔ ∃ d, date r = Some d ∧ (two_weeks_ago ≤ d)%Z.
Proof.
  unfold is_recent. destruct (date r) as [d|].
  - rewrite Z.leb_le. split; [by exists d | by intros (? & [= <-] & ?)].
  - split; [done | by intros (? & ? & _)].
Qed.

Lemma two_weeks_before_Ok (now t : Z) :
  two_weeks_before now = Ok t ↔ t = (now - timedelta_days 14)%Z ∧ (datetime_min ≤ t)%Z.
Proof.
  unfold two_weeks_before.
  destruct (now - timedelta_days 14 <? datetime_min)%Z eqn:Hlt.
  - apply Z.ltb_lt in Hlt. split; [done | intros [-> ?]; lia].
  - apply Z.ltb_ge in Hlt. split; [intros [= <-]; done | by intros [-> _]].
Qed.

(** The subtraction of line 125 raises nothing but [OverflowError]. *)
Lemma two_weeks_before_raises (now : Z) (e : exn) :
  two_weeks_before now = Raise e → e = Exception OverflowError.
Proof.
  unfold two_weeks_before.
  destruct (now - timedelta_days 14 <? datetime_min)%Z; [by intros [= <-] | done].
Qed.

(** ** Dicts *)

Lemma assoc_get_set_eq {V} (items : list (string * V)) (k : string) (v : V) :
  assoc_get k (assoc_set k v items) = Some v.
Proof.
  induction items as [|[k0 v0] items IH]; simpl.
  - by rewrite decide_True.
  - case_decide; simpl; [by rewrite decide_True | by rewrite decide_False].
Qed.

Lemma assoc_get_set_ne {V} (items : list (string * V)) (k k' : string) (v : V) :
  k ≠ k' → assoc_get k' (assoc_set k v items) = assoc_get k' items.
Proof.
  intros Hne. induction items as [|[k0 v0] items IH]; simpl.
  - by rewrite decide_False.
  - case_decide as Hk; simpl.
    + subst k0. by rewrite !decide_False.
    + case_decide; [done | exact IH].
Qed.

Lemma dict_lookup_empty {V} (k : string) : (∅ : Dict V) !! k = None.
Proof. reflexivity. Qed.

Lemma dict_lookup_insert_eq {V} (d : Dict V) (k : string) (v : V) :
  <[k := v]> d !! k = Some v.
Proof. apply assoc_get_set_eq. Qed.

Lemma dict_lookup_insert_ne {V} (d : Dict V) (k k' : string) (v : V) :
  k ≠ k' → <[k := v]> d !! k' = d !! k'.
Proof. apply assoc_get_set_ne. Qed.

Lemma elem_of_dict_dom {V} (d : Dict V) (k : string) :
  k ∈ dom d ↔ is_Some (d !! k).
Proof.
  unfold dom, dict_dom, lookup, dict_lookup.
  rewrite elem_of_list_to_set, list_elem_of_fmap.
  induction (dict_items d) as [|[k0 v0] items IH]; simpl.
  - split; [by intros (? & _ & ?%elem_of_nil) | by intros [? ?]].
  - case_decide as Hk.
    + subst k0. split; [by eexists|]. intros _. exists (k, v0). split; [done | by left].
    + rewrite <- IH. split.
      * intros (item & -> & Hin). apply elem_of_cons in Hin as [-> | Hin]; [done|].
        by exists item.
      * intros (item & -> & Hin). exists item. split; [done | by right].
Qed.

(** ** The selection on the loaded store *)

Lemma contains_iterable (old_results : PyValue) (x : string) :
  iterable old_results = true → contains old_results x = Ok (known_url old_results x).
Proof. unfold known_url. by destruct old_results. Qed.

Lemma contains_not_iterable (old_results : PyValue) (x : string) :
  iterable old_results = false → contains old_results x = Raise (Exception TypeError).
Proof. by destruct old_results. Qed.

(** On a dict, a list or a string line 165 is a filter. *)
Lemma new_results_iterable (results : list Row) (old_results : PyValue) :
  iterable old_results = true →
  new_results results old_results =
  Ok (List.filter (λ r, negb (known_url old_results (pdf_url r))) results).
Proof.
  intros Hit. induction results as [|r results IH]; [done|].
  cbn [new_results List.filter]. rewrite IH, (contains_iterable _ _ Hit). simpl.
  by destruct (known_url old_results (pdf_url r)).
Qed.

(** On any other value it raises [TypeError] at the first result. *)
Lemma new_results_not_iterable (results : list Row) (old_results : PyValue) :
  iterable old_results = false →
  new_results results old_results =
  match results with
  | [] => Ok []
  | _ :: _ => Raise (Exception TypeError)
  end.
Proof.
  intros Hit. destruct results as [|r results]; [done|].
  cbn [new_results]. by rewrite (contains_not_iterable _ _ Hit).
Qed.

Lemma sort_reverse_nil_inv {A} (key : A → Z) (l : list A) :
  sort_reverse key l = [] → l = [].
Proof.
  intros Hnil. apply Permutation_nil_r. rewrite <- Hnil.
  symmetry. apply sort_reverse_Permutation.
Qed.

Lemma select_iterable (results : list Row) (old_results : PyValue) (t : Z) :
  iterable old_results = true →
  select results old_results t =
  Ok (List.filter (is_recent t)
        (List.filter (λ r, negb (known_url old_results (pdf_url r)))
           (sort_reverse sort_key results))).
Proof. intros Hit. unfold select. by rewrite new_results_iterable. Qed.

Lemma select_not_iterable (results : list Row) (old_results : PyValue) (t : Z) :
  iterable old_results = false →
  select results old_results t =
  match results with
  | [] => Ok []
  | _ :: _ => Raise (Exception TypeError)
  end.
Proof.
  intros Hit. unfold select. rewrite new_results_not_iterable by done.
  destruct results as [|r results]; [done|].
  destruct (sort_reverse sort_key (r :: results)) eqn:Hs; [|done].
  by apply sort_reverse_nil_inv in Hs.
Qed.

(** Line 165 raises nothing but [TypeError]. *)
Lemma select_raises (results : list Row) (old_results : PyValue) (t : Z) (e : exn) :
  select results old_results t = Raise e → e = Exception TypeError.
Proof.
  destruct (iterable old_results) eqn:Hit.
  - by rewrite select_iterable.
  - rewrite select_not_iterable by done. destruct results; [done | by intros [= <-]].
Qed.

(** The rows handed to the formatter: those of [results] whose url the
    test of line 165 does not find and that pass the test of line 168. *)
Lemma elem_of_select (results : list Row) (old_results : PyValue)
    (two_weeks_ago : Z) (selected : list Row) (r : Row) :
  select results old_results two_weeks_ago = Ok selected →
  r ∈ selected ↔
  r ∈ results ∧ contains old_results (pdf_url r) = Ok false ∧
  is_recent two_weeks_ago r = true.
Proof.
  intros Hsel. destruct (iterable old_results) eqn:Hit.
  - rewrite select_iterable in Hsel by done. injection Hsel as <-.
    rewrite !elem_of_List_filter, sort_reverse_Permutation, negb_true_iff.
    rewrite (contains_iterable _ _ Hit). split.
    + intros [[? ->] ?]. done.
    + intros (? & [= ->] & ?). done.
  - rewrite select_not_iterable in Hsel by done.
    destruct results as [|r0 results]; [|done]. injection Hsel as <-.
    split; [by intros ?%elem_of_nil | by intros [?%elem_of_nil _]].
Qed.

(** The selection on a dict: a row is left out when its url is a key. *)
Lemma elem_of_select_dict (results : list Row) (d : Dict PyValue) (t : Z)
    (selected : list Row) (r : Row) :
  select results (PyDict d) t = Ok selected →
  r ∈ selected ↔ r ∈ results ∧ d !! pdf_url r = None ∧ is_recent t r = true.
Proof.
  intros Hsel. rewrite (elem_of_select _ _ _ _ _ Hsel). simpl.
  split; intros (Hr & Hd & Hrec); (split; [done|]; split; [|done]).
  - injection Hd as Hd. apply bool_decide_eq_false in Hd.
    by apply eq_None_not_Some.
  - f_equal. apply bool_decide_eq_false. by rewrite Hd; intros [? ?].
Qed.

Lemma select_dict_Ok (results : list Row) (d : Dict PyValue) (t : Z) :
  ∃ selected, select results (PyDict d) t = Ok selected.
Proof. rewrite select_iterable by done. by eexists. Qed.

(** C2. Among the matched rows whose url is not recorded, the recency
    filter keeps exactly those with a parsed date not earlier than the
    clock reading of the run minus 14 days of 24 hours: a row dated
    exactly 14 days before that reading is kept, a row dated 14 days and
    one second before it is not. *)
Theorem recency_filter_iff (results : list Row) (old_results : Dict PyValue)
    (now two_weeks_ago : Z) :
  two_weeks_before now = Ok two_weeks_ago →
  ∃ selected,
    select results (PyDict old_results) two_weeks_ago = Ok selected ∧
    (∀ r, r ∈ results → old_results !! pdf_url r = None →
       (r ∈ selected ↔ ∃ d, date r = Some d ∧ (now - timedelta_days 14 ≤ d)%Z)) ∧
    (∀ r, r ∈ results → old_results !! pdf_url r = None →
       date r = Some (now - timedelta_days 14)%Z → r ∈ selected) ∧
    (∀ r, r ∈ results → old_results !! pdf_url r = None →
       date r = Some (now - timedelta_days 14 - 1000000)%Z → r ∉ selected) ∧
    timedelta_days 14 = (14 * 24 * 60 * 60 * 1000000)%Z.
Proof.
  intros Ht. apply two_weeks_before_Ok in Ht as [-> _].
  destruct (select_dict_Ok results old_results (now - timedelta_days 14)) as [selected Hsel].
  exists selected. split; [done|].
  assert (Hiff : ∀ r, r ∈ results → old_results !! pdf_url r = None →
     (r ∈ selected ↔ ∃ d, date r = Some d ∧ (now - timedelta_days 14 ≤ d)%Z)).
  { intros r Hr Hold. rewrite (elem_of_select_dict _ _ _ _ _ Hsel), is_recent_spec.
    split.
    - intros (_ & _ & d & Hd & Hle). exists d. split; [done | lia].
    - intros (d & Hd & Hle). split; [done|]. split; [done|]. exists d. split; [done | lia]. }
  split; [exact Hiff|]. split; [|split; [|done]].
  - intros r Hr Hold Hd. apply Hiff; [done..|]. eexists. split; [done | lia].
  - intros r Hr Hold Hd. rewrite Hiff by done. intros (d & Hd' & Hle).
    rewrite Hd in Hd'. simplify_eq. lia.
Qed.

(** A run at 2026-01-29 00:00:00 keeps the row of the example listing,
    dated 2026-01-15 and so exactly 14 days old; a run one second later
    leaves it out. *)
Lemma recency_filter_iff_witness :
  (∃ selected,
     select [example_row] (PyDict ∅) (datetime_ymd 2026 1 29 - timedelta_days 14)%Z
       = Ok selected ∧ example_row ∈ selected) ∧
  (∃ selected,
     select [example_row] (PyDict ∅)
       (datetime_ymd 2026 1 29 + 1000000 - timedelta_days 14)%Z = Ok selected ∧
     example_row ∉ selected).
Proof.
  split.
  - destruct (recency_filter_iff [example_row] ∅ (datetime_ymd 2026 1 29)
                (datetime_ymd 2026 1 29 - timedelta_days 14)%Z)
      as (selected & Hsel & _ & H14 & _); [reflexivity|].
    exists selected. split; [exact Hsel|].
    apply H14; [by left | reflexivity | reflexivity].
  - destruct (recency_filter_iff [example_row] ∅ (datetime_ymd 2026 1 29 + 1000000)%Z
                (datetime_ymd 2026 1 29 + 1000000 - timedelta_days 14)%Z)
      as (selected & Hsel & _ & _ & H15 & _); [reflexivity|].
    exists selected. split; [exact Hsel|].
    apply H15; [by left | reflexivity | reflexivity].
Defined.

(** On a dict the loop of lines 108-109 stores a record for each row. *)
Lemma mark_sent_dict (timestamp : string) (d : Dict PyValue) (rows : list Row) :
  mark_sent timestamp (PyDict d) rows = Ok (PyDict (with_records timestamp d rows)).
Proof.
  unfold mark_sent, with_records. revert d.
  induction rows as [|r rows IH]; intros d; [done|]. cbn [foldl]. apply IH.
Qed.

Lemma mark_sent_raised (timestamp : string) (e : exn) (rows : list Row) :
  foldl (λ acc result,
           old ← acc; setitem old (pdf_url result) (record_of timestamp result))
        (Raise e) rows = Raise e.
Proof. induction rows as [|r rows IH]; [done | exact IH]. Qed.

(** On any other value the first assignment raises [TypeError]. *)
Lemma mark_sent_not_dict (timestamp : string) (old_results : PyValue) (rows : list Row) :
  is_dict old_results = false →
  mark_sent timestamp old_results rows =
  match rows with
  | [] => Ok old_results
  | _ :: _ => Raise (Exception TypeError)
  end.
Proof.
  intros Hd. destruct rows as [|r rows]; [done|].
  unfold mark_sent. cbn [foldl].
  destruct old_results; try done; apply mark_sent_raised.
Qed.

(** Line 109 raises nothing but [TypeError]. *)
Lemma mark_sent_raises (timestamp : string) (old_results : PyValue) (rows : list Row)
    (e : exn) :
  mark_sent timestamp old_results rows = Raise e → e = Exception TypeError.
Proof.
  destruct (is_dict old_results) eqn:Hd.
  - destruct old_results; try done. by rewrite mark_sent_dict.
  - rewrite mark_sent_not_dict by done. destruct rows; [done | by intros [= <-]].
Qed.

(** The keys of the store after the rows have been recorded. *)
Lemma with_records_is_Some (timestamp : string) (rows : list Row)
    (old_results : Dict PyValue) (k : string) :
  is_Some (with_records timestamp old_results rows !! k) ↔
  is_Some (old_results !! k) ∨ ∃ r, r ∈ rows ∧ pdf_url r = k.
Proof.
  unfold with_records. revert old_results.
  induction rows as [|r rows IH]; intros old_results; simpl.
  - split; [by left | intros [? | (? & Hin & _)]; [done | by apply elem_of_nil in Hin]].
  - rewrite IH. destruct (decide (pdf_url r = k)) as [Heq | Hne].
    + rewrite Heq, dict_lookup_insert_eq. split; [|by left].
      intros _. right. exists r. split; [apply list_elem_of_here | done].
    + rewrite dict_lookup_insert_ne by done. split.
      * intros [? | (r' & Hin & Hk)]; [by left | right].
        exists r'. split; [by apply list_elem_of_further | done].
      * intros [? | (r' & Hin & Hk)]; [by left|].
        apply elem_of_cons in Hin as [-> | Hin]; [done | right; eauto].
Qed.

(** A key that no recorded row has keeps its record. *)
Lemma with_records_lookup_ne (timestamp : string) (rows : list Row)
    (old_results : Dict PyValue) (k : string) :
  (∀ r, r ∈ rows → pdf_url r ≠ k) →
  with_records timestamp old_results rows !! k = old_results !! k.
Proof.
  unfold with_records. revert old_results.
  induction rows as [|r rows IH]; intros old_results Hne; simpl; [done|].
  rewrite IH.
  - apply dict_lookup_insert_ne, Hne, list_elem_of_here.
  - intros r' Hin. by apply Hne, list_elem_of_further.
Qed.


(** Once the selected rows are recorded, a threshold that is not
    earlier selects nothing among the same rows. *)
Lemma select_after_mark_sent (results : list Row) (old_results : Dict PyValue)
    (t1 t2 : Z) (timestamp : string) (first : list Row) :
  (t1 ≤ t2)%Z →
  select results (PyDict old_results) t1 = Ok first →
  select results (PyDict (with_records timestamp old_results first)) t2 = Ok [].
Proof.
  intros Hle Hfirst.
  destruct (select_dict_Ok results (with_records timestamp old_results first) t2)
    as [second Hsecond].
  rewrite Hsecond. f_equal. apply elem_of_nil_inv. intros r.
  rewrite (elem_of_select_dict _ _ _ _ _ Hsecond), is_recent_spec.
  intros (Hr & Hnone & d & Hd & Hge).
  apply eq_None_not_Some in Hnone. apply Hnone, with_records_is_Some.
  destruct (old_results !! pdf_url r) as [rec|] eqn:Hold; [by left; eexists | right].
  exists r. split; [|done].
  apply (elem_of_select_dict _ _ _ _ _ Hfirst). split; [done|]. split; [done|].
  apply is_recent_spec. exists d. split; [done | lia].
Qed.

(** C9. Running the filter again on the same rows, at a clock reading
    that is not earlier, with the urls of the first selection recorded
    in the store, selects nothing; a row whose url is recorded is never
    selected, and recording rows never removes a url from the store. *)
Theorem dedup_idempotent (results : list Row) (old_results : Dict PyValue)
    (now1 now2 t1 t2 : Z) (timestamp : string) :
  two_weeks_before now1 = Ok t1 →
  two_weeks_before now2 = Ok t2 →
  (now1 ≤ now2)%Z →
  (∃ first recorded,
     select results (PyDict old_results) t1 = Ok first ∧
     mark_sent timestamp (PyDict old_results) first = Ok (PyDict recorded) ∧
     select results (PyDict recorded) t2 = Ok []) ∧
  (∀ (known : Dict PyValue) rows r t,
     is_Some (known !! pdf_url r) →
     ∃ selected, select rows (PyDict known) t = Ok selected ∧ r ∉ selected) ∧
  (∀ rows k, is_Some (old_results !! k) →
     ∃ recorded, mark_sent timestamp (PyDict old_results) rows = Ok (PyDict recorded) ∧
                 is_Some (recorded !! k)).
Proof.
  intros Ht1 Ht2 Hnow.
  apply two_weeks_before_Ok in Ht1 as [-> _], Ht2 as [-> _].
  split; [|split].
  - destruct (select_dict_Ok results old_results (now1 - timedelta_days 14)) as [first Hfirst].
    exists first, (with_records timestamp old_results first).
    split; [done|]. split; [apply mark_sent_dict|].
    apply (select_after_mark_sent _ _ (now1 - timedelta_days 14)); [lia | done].
  - intros known rows r t Hk.
    destruct (select_dict_Ok rows known t) as [selected Hsel].
    exists selected. split; [done|]. intros Hin.
    apply (elem_of_select_dict _ _ _ _ _ Hsel) in Hin as (_ & Hnone & _).
    rewrite Hnone in Hk. by destruct Hk.
  - intros rows k Hk. exists (with_records timestamp old_results rows).
    split; [apply mark_sent_dict|]. apply with_records_is_Some. by left.
Qed.

(** Two runs on the example listing, one day apart: the first selects
    the row, the second nothing. *)
Lemma dedup_idempotent_witness :
  select [example_row] (PyDict ∅) (datetime_ymd 2026 1 20 - timedelta_days 14)%Z
    = Ok [example_row] ∧
  ∃ first recorded,
    select [example_row] (PyDict ∅) (datetime_ymd 2026 1 20 - timedelta_days 14)%Z
      = Ok first ∧
    mark_sent "20.01.2026 10:00:00" (PyDict ∅) first = Ok (PyDict recorded) ∧
    select [example_row] (PyDict recorded) (datetime_ymd 2026 1 21 - timedelta_days 14)%Z
      = Ok [].
Proof.
  split; [reflexivity|].
  apply (dedup_idempotent [example_row] ∅ (datetime_ymd 2026 1 20) (datetime_ymd 2026 1 21)).
  - reflexivity.
  - reflexivity.
  - by vm_compute.
Defined.

(** The loop over the rows raises nothing but the [KeyError] of line 143. *)
Lemma extract_results_raises `{PyLib} terms table e :
  extract_results terms table = Raise e → e = Exception KeyError.
Proof.
  unfold extract_results.
  enough (Hacc : ∀ trs acc,
    (∀ e', acc = Raise e' → e' = Exception KeyError) →
    foldl (λ acc columns, results ← acc; visit_row terms results columns) acc trs
      = Raise e → e = Exception KeyError)
    by (apply Hacc; done).
  induction trs as [|columns trs IH]; intros acc Hacc; simpl; [by apply Hacc|].
  apply IH. intros e'. destruct acc as [results|e0]; simpl; [|by apply Hacc].
  unfold visit_row. destruct columns as [|tc [|dc rest]]; [done..|].
  unfold cell_href. destruct (td_a tc) as [link|]; simpl.
  - destruct (a_href link); simpl; [|by intros [= <-]].
    by destruct (matching_combos _ terms).
  - by destruct (matching_combos _ terms).
Qed.

(** ** Files: the loader, the artifacts and the store *)

Ltac unfold_M :=
  unfold mbind, mret, M_mbind, M_mret, M_bind, M_ret, try_except, lift, raise,
    sys_exit in *.

(** An equation between closed terms, checked by evaluating its left side. *)
Ltac by_evaluation :=
  lazymatch goal with |- _ = ?r => vm_cast_no_check (@eq_refl _ r) end.

Lemma subject_file_ne_results : SUBJECT_FILE ≠ RESULTS_FILE.
Proof. by vm_compute. Qed.

Lemma body_file_ne_results : BODY_FILE ≠ RESULTS_FILE.
Proof. by vm_compute. Qed.

Section Effects.
Context `{PyLib} `{JsonCodec}.

(** C7. The loader never raises and leaves the files as they are.  It
    returns the empty mapping when the store file is absent, and when
    reading it or parsing it fails; otherwise it returns what is stored
    in the file, as [json.load] parsed it. *)
Theorem load_sent_results_cases (fails : bool) (fs : gmap string string) :
  (fs !! RESULTS_FILE = None → load_sent_results fails fs = (Ok (PyDict ∅), fs)) ∧
  (∀ text, fs !! RESULTS_FILE = Some text →
     fails = true ∨ json_load text = None →
     load_sent_results fails fs = (Ok (PyDict ∅), fs)) ∧
  (∀ text value, fs !! RESULTS_FILE = Some text →
     fails = false → json_load text = Some value →
     load_sent_results fails fs = (Ok value, fs)) ∧
  (∃ value, load_sent_results fails fs = (Ok value, fs)).
Proof.
  unfold load_sent_results, path_exists, read_json. unfold_M.
  destruct (fs !! RESULTS_FILE) as [text|] eqn:Hfile; simpl; rewrite ?Hfile.
  - split; [done|]. split; [|split].
    + intros ? [= <-] [-> | Hparse]; [done|].
      destruct fails; [done|]. by rewrite Hparse.
    + intros ? value [= <-] -> Hparse. by rewrite Hparse.
    + destruct fails; [by eexists|]. destruct (json_load text); by eexists.
  - split; [done|]. split; [done|]. split; [done | by eexists].
Qed.

Lemma load_sent_results_total (fails : bool) (fs : gmap string string) :
  ∃ value, load_sent_results fails fs = (Ok value, fs).
Proof.
  unfold load_sent_results, path_exists, read_json. unfold_M.
  destruct (fs !! RESULTS_FILE) as [text|] eqn:Hfile; simpl; rewrite ?Hfile;
    [|by eexists].
  destruct fails; [by eexists|]. destruct (json_load text); by eexists.
Qed.

(** The loader reads nothing but the store file. *)
Lemma load_sent_results_ext (fails : bool) (fs1 fs2 : gmap string string) :
  fs1 !! RESULTS_FILE = fs2 !! RESULTS_FILE →
  (load_sent_results fails fs1).1 = (load_sent_results fails fs2).1.
Proof.
  intros Heq. unfold load_sent_results, path_exists, read_json. unfold_M.
  destruct (fs2 !! RESULTS_FILE) as [text|] eqn:Hfile; simpl;
    rewrite ?Heq, ?Hfile; simpl; rewrite ?Heq, ?Hfile; [|done].
  destruct fails; [done|]. by destruct (json_load text).
Qed.

Lemma load_sent_results_read_fails (fs : gmap string string) :
  load_sent_results true fs = (Ok (PyDict ∅), fs).
Proof.
  unfold load_sent_results, path_exists, read_json. unfold_M.
  by destruct (fs !! RESULTS_FILE).
Qed.

(** The loader on a store file whose text [json.load] rejects. *)
Lemma load_sent_results_rejected (fails : bool) (text : string) (fs : gmap string string) :
  fs !! RESULTS_FILE = Some text → json_load text = None →
  load_sent_results fails fs = (Ok (PyDict ∅), fs).
Proof.
  intros Hfile Hparse. unfold load_sent_results, path_exists, read_json. unfold_M.
  rewrite Hfile. simpl. rewrite ?Hfile. destruct fails; [done|]. by rewrite Hparse.
Qed.

(** The loader on the text [json.dump] wrote, when [json.load] reads it
    back. *)
Lemma load_after_dump (value : PyValue) (fs : gmap string string) :
  json_load (json_dump value) = Some value →
  load_sent_results false (<[RESULTS_FILE := json_dump value]> fs) =
    (Ok value, <[RESULTS_FILE := json_dump value]> fs).
Proof.
  intros Hcodec. unfold load_sent_results, path_exists, read_json. unfold_M.
  rewrite !lookup_insert_eq. simpl. rewrite ?lookup_insert_eq.
  by rewrite Hcodec.
Qed.

(** What [write_file_output] does: it writes the file, or exits with
    status 1 touching no other file. *)
Lemma write_file_output_cases (o : write_outcome) (filename content : string)
    (fs : gmap string string) :
  match o with
  | WriteOk => write_file_output o filename content fs = (Ok tt, <[filename := content]> fs)
  | WriteFail _ =>
      ∃ fs', write_file_output o filename content fs = (Raise (SystemExit 1), fs') ∧
             ∀ other, other ≠ filename → fs' !! other = fs !! other
  end.
Proof.
  destruct o as [|[junk|]]; [done|..]; eexists; (split; [reflexivity|]).
  - intros other Hne. by apply lookup_insert_ne.
  - done.
Qed.

Lemma write_file_output_ok (filename content : string) (fs : gmap string string) :
  write_file_output WriteOk filename content fs = (Ok tt, <[filename := content]> fs).
Proof. reflexivity. Qed.

(** [save_results] returns whatever the write does. *)
Lemma save_results_cases (o : write_outcome) (value : PyValue) (fs : gmap string string) :
  save_results o value fs = (Ok tt, files_after_store o (json_dump value) fs).
Proof. by destruct o as [|[junk|]]. Qed.

(** When an artifact cannot be written the formatter ends the run with
    [SystemExit(1)] before it reaches line 105: the store file is as it
    was. *)
Lemma format_write_failure (env : Env) (rows : list Row) (fs : gmap string string) :
  rows ≠ [] →
  env_subject_write env ≠ WriteOk ∨ env_body_write env ≠ WriteOk →
  ∃ fs', format_results_as_html env rows fs = (Raise (SystemExit 1), fs') ∧
         fs' !! RESULTS_FILE = fs !! RESULTS_FILE.
Proof.
  intros Hrows Hfail. destruct rows as [|r rows]; [done|].
  unfold format_results_as_html. unfold_M.
  pose proof (write_file_output_cases (env_subject_write env) SUBJECT_FILE
                (subject_content (r :: rows)) fs) as Hsub.
  destruct (env_subject_write env) as [|junk].
  - rewrite Hsub.
    pose proof (write_file_output_cases (env_body_write env) BODY_FILE
                  (body_content (r :: rows))
                  (<[SUBJECT_FILE := subject_content (r :: rows)]> fs)) as Hbody.
    destruct (env_body_write env) as [|junk]; [by destruct Hfail|].
    destruct Hbody as (fs' & -> & Hother). exists fs'. split; [done|].
    rewrite Hother by (symmetry; apply body_file_ne_results).
    apply lookup_insert_ne, subject_file_ne_results.
  - destruct Hsub as (fs' & -> & Hother). exists fs'. split; [done|].
    apply Hother. symmetry. apply subject_file_ne_results.
Qed.

(** The store file is the same before and after the two artifacts are
    written. *)
Lemma files_after_artifacts_store (rows : list Row) (fs : gmap string string) :
  files_after_artifacts rows fs !! RESULTS_FILE = fs !! RESULTS_FILE.
Proof. unfold files_after_artifacts. by rewrite !lookup_insert_ne by (by vm_compute). Qed.

(** With the two artifacts written, the formatter reads the store again
    and records the rows in what it read (lines 105-109).  When that
    succeeds it saves the result and returns [True]. *)
Lemma format_returns (env : Env) (rows : list Row) (fs : gmap string string)
    (reloaded recorded : PyValue) :
  rows ≠ [] →
  env_subject_write env = WriteOk → env_body_write env = WriteOk →
  (load_sent_results (env_reload_fails env) fs).1 = Ok reloaded →
  mark_sent (env_timestamp env) reloaded rows = Ok recorded →
  format_results_as_html env rows fs =
    (Ok true, files_after_store (env_store_write env) (json_dump recorded)
                (files_after_artifacts rows fs)).
Proof.
  intros Hrows Hs Hb Hre Hmark. destruct rows as [|r rows]; [done|].
  set (fs1 := files_after_artifacts (r :: rows) fs).
  destruct (load_sent_results_total (env_reload_fails env) fs1) as [value Hvalue].
  assert (value = reloaded) as ->.
  { rewrite (load_sent_results_ext _ fs fs1) in Hre.
    - rewrite Hvalue in Hre. by injection Hre.
    - symmetry. apply files_after_artifacts_store. }
  unfold format_results_as_html. rewrite Hs, Hb. unfold_M.
  rewrite !write_file_output_ok.
  change (<[BODY_FILE := body_content (r :: rows)]>
            (<[SUBJECT_FILE := subject_content (r :: rows)]> fs)) with fs1.
  rewrite Hvalue. cbv beta iota zeta. rewrite Hmark. cbv beta iota.
  by rewrite save_results_cases.
Qed.


(** The formatter given no row returns [False] and writes nothing
    (lines 67-68). *)
Lemma format_nothing (env : Env) (fs : gmap string string) :
  format_results_as_html env [] fs = (Ok false, fs).
Proof. reflexivity. Qed.

(** ** The paths of a run *)

(** The run when the fetch fails. *)
Lemma run_fetch_failed (env : Env) (fs : gmap string string) :
  env_response env = FetchFailed → run env fs = (1%Z, fs).
Proof.
  intros Hresp. unfold run, main, scrape_parking_auctions. unfold_M.
  destruct (load_sent_results_total (env_load_fails env) fs) as [old ->].
  rewrite Hresp.
  by destruct (two_weeks_before (env_now env)) as [t|[code| |c]] eqn:Ht;
    [|apply two_weeks_before_raises in Ht..].
Qed.

(** The run when the page has no table. *)
Lemma run_missing_table (env : Env) (fs : gmap string string) (t : Z) :
  two_weeks_before (env_now env) = Ok t →
  env_response env = Page None → run env fs = (0%Z, fs).
Proof.
  intros Ht Hresp. unfold run, main, scrape_parking_auctions. unfold_M.
  destruct (load_sent_results_total (env_load_fails env) fs) as [old ->].
  by rewrite Ht, Hresp.
Qed.

(** The run when the loop over the rows raises. *)
Lemma run_extract_raises (env : Env) (fs : gmap string string) (t : Z) table e :
  two_weeks_before (env_now env) = Ok t →
  env_response env = Page (Some table) →
  extract_results search_terms table = Raise e →
  run env fs = (1%Z, fs).
Proof.
  intros Ht Hresp Hres. unfold run, main, scrape_parking_auctions. unfold_M.
  destruct (load_sent_results_total (env_load_fails env) fs) as [old ->].
  rewrite Ht, Hresp, Hres. by apply extract_results_raises in Hres as ->.
Qed.

(** The run once the rows are extracted: what it does with the outcome
    of the selection and of the formatter. *)
Lemma run_selects (env : Env) (fs : gmap string string) old t table results :
  load_sent_results (env_load_fails env) fs = (Ok old, fs) →
  two_weeks_before (env_now env) = Ok t →
  env_response env = Page (Some table) →
  extract_results search_terms table = Ok results →
  run env fs =
    match select results old t with
    | Ok [] => (0%Z, fs)
    | Ok (r :: rows) =>
        match format_results_as_html env (r :: rows) fs with
        | (Ok _, fs') => (0%Z, fs')
        | (Raise KeyboardInterrupt, fs') => (0%Z, fs')
        | (Raise (SystemExit code), fs') => (code, fs')
        | (Raise (Exception _), fs') => (1%Z, fs')
        end
    | Raise _ => (1%Z, fs)
    end.
Proof.
  intros Hold Ht Hresp Hres.
  unfold run, main, scrape_parking_auctions. unfold_M.
  rewrite Hold, Ht, Hresp, Hres.
  destruct (select results old t) as [[|r rows]|e] eqn:Hsel; [done| |].
  - destruct (format_results_as_html env (r :: rows) fs) as [[b|[code| |c]] fs'];
      try destruct c; done.
  - by apply select_raises in Hsel as ->.
Qed.

(** The run when nothing is selected: status 0, no file written. *)
Lemma run_nothing_selected (env : Env) (fs : gmap string string) old t table results :
  load_sent_results (env_load_fails env) fs = (Ok old, fs) →
  two_weeks_before (env_now env) = Ok t →
  env_response env = Page (Some table) →
  extract_results search_terms table = Ok results →
  select results old t = Ok [] →
  run env fs = (0%Z, fs).
Proof.
  intros Hold Ht Hresp Hres Hsel.
  by rewrite (run_selects env fs old t table results), Hsel.
Qed.

(** The run when line 165 raises: status 1, no file written. *)
Lemma run_select_raises (env : Env) (fs : gmap string string) old t table results e :
  load_sent_results (env_load_fails env) fs = (Ok old, fs) →
  two_weeks_before (env_now env) = Ok t →
  env_response env = Page (Some table) →
  extract_results search_terms table = Ok results →
  select results old t = Raise e →
  run env fs = (1%Z, fs).
Proof.
  intros Hold Ht Hresp Hres Hsel.
  by rewrite (run_selects env fs old t table results), Hsel.
Qed.

(** The run when rows are selected and the formatter returns. *)
Lemma run_formatter_returns (env : Env) (fs fs' : gmap string string)
    old t table results selected (b : bool) :
  load_sent_results (env_load_fails env) fs = (Ok old, fs) →
  two_weeks_before (env_now env) = Ok t →
  env_response env = Page (Some table) →
  extract_results search_terms table = Ok results →
  select results old t = Ok selected → selected ≠ [] →
  format_results_as_html env selected fs = (Ok b, fs') →
  run env fs = (0%Z, fs').
Proof.
  intros Hold Ht Hresp Hres Hsel Hne Hf.
  rewrite (run_selects env fs old t table results), Hsel by done.
  destruct selected as [|r rows]; [done|]. by rewrite Hf.
Qed.

(** The run when rows are selected and the formatter raises an
    exception or exits. *)
Lemma run_formatter_raises (env : Env) (fs fs' : gmap string string)
    old t table results selected (e : exn) :
  load_sent_results (env_load_fails env) fs = (Ok old, fs) →
  two_weeks_before (env_now env) = Ok t →
  env_response env = Page (Some table) →
  extract_results search_terms table = Ok results →
  select results old t = Ok selected → selected ≠ [] →
  format_results_as_html env selected fs = (Raise e, fs') →
  e = SystemExit 1 ∨ (∃ c, e = Exception c) →
  run env fs = (1%Z, fs').
Proof.
  intros Hold Ht Hresp Hres Hsel Hne Hf He.
  rewrite (run_selects env fs old t table results), Hsel by done.
  destruct selected as [|r rows]; [done|]. rewrite Hf.
  by destruct He as [-> | [c ->]].
Qed.

End Effects.

(** ** Claims on the files *)



(** With two rows of one url in a batch the record is the later row's. *)
Example persist_same_url_twice :
  let r1 := row_dated "15.01.2026" in
  let r2 := {| title := "Alt titlu"; pdf_url := pdf_url r1; date_str := "16.01.2026";
               date := None; matched_terms := matched_terms r1 |} in
  ∃ m record,
    mark_sent "t" (PyDict ∅) [r1; r2] = Ok (PyDict m) ∧
    m !! pdf_url r1 = Some (PyDict record) ∧
    record !! "title" = Some (PyStr "Alt titlu").
Proof. by eexists _, _. Qed.

(** C6. In a run in which the write of the subject file or of the body
    file fails, the store file is at the end what it was at the start;
    the formatter, whenever it is given rows, ends such a run by
    [SystemExit(1)] before it reaches the update of the store; and when
    the run reaches the formatter, its exit status is 1. *)
Theorem artifact_write_failure_is_fatal `{PyLib} `{JsonCodec} (env : Env)
    (fs : gmap string string) :
  env_subject_write env ≠ WriteOk ∨ env_body_write env ≠ WriteOk →
  (run env fs).2 !! RESULTS_FILE = fs !! RESULTS_FILE ∧
  (∀ rows, rows ≠ [] →
     ∃ fs', format_results_as_html env rows fs = (Raise (SystemExit 1), fs') ∧
            fs' !! RESULTS_FILE = fs !! RESULTS_FILE) ∧
  (∀ old t table results selected,
     load_sent_results (env_load_fails env) fs = (Ok old, fs) →
     two_weeks_before (env_now env) = Ok t →
     env_response env = Page (Some table) →
     extract_results search_terms table = Ok results →
     select results old t = Ok selected → selected ≠ [] →
     (run env fs).1 = 1%Z).
Proof.
  intros Hfail.
  destruct (load_sent_results_total (env_load_fails env) fs) as [old Hold].
  assert (Hrun : ∀ t table results selected,
     two_weeks_before (env_now env) = Ok t →
     env_response env = Page (Some table) →
     extract_results search_terms table = Ok results →
     select results old t = Ok selected → selected ≠ [] →
     (run env fs).1 = 1%Z ∧ (run env fs).2 !! RESULTS_FILE = fs !! RESULTS_FILE).
  { intros t table results selected Ht Hresp Hres Hsel Hne.
    destruct (format_write_failure env selected fs) as (fs' & Hf & Hstore); [done..|].
    rewrite (run_formatter_raises env fs fs' old t table results selected (SystemExit 1));
      [done | done..| by left]. }
  split; [|split].
  - destruct (two_weeks_before (env_now env)) as [t|e] eqn:Ht.
    2:{ unfold run, main, scrape_parking_auctions. unfold_M. rewrite Hold, Ht.
        by apply two_weeks_before_raises in Ht as ->. }
    destruct (env_response env) as [|[table|]] eqn:Hresp.
    + by rewrite run_fetch_failed.
    + destruct (extract_results search_terms table) as [results|e] eqn:Hres.
      2:{ by rewrite (run_extract_raises env fs t table e). }
      destruct (select results old t) as [[|r rows]|e] eqn:Hsel.
      * by rewrite (run_nothing_selected env fs old t table results).
      * by apply (Hrun t table results (r :: rows)).
      * by rewrite (run_select_raises env fs old t table results e).
    + by rewrite (run_missing_table env fs t).
  - intros rows Hrows. by apply format_write_failure.
  - intros old' t table results selected Hold' Ht Hresp Hres Hsel Hne.
    rewrite Hold in Hold'. injection Hold' as <-.
    by apply (Hrun t table results selected).
Qed.

Lemma artifact_write_failure_is_fatal_witness :
  (run body_failure_env earlier_files).2 !! RESULTS_FILE = earlier_files !! RESULTS_FILE ∧
  (run body_failure_env earlier_files).1 = 1%Z.
Proof.
  destruct (artifact_write_failure_is_fatal body_failure_env earlier_files)
    as (Hstore & _ & Hstatus).
  { right. discriminate. }
  split; [exact Hstore|].
  apply (Hstatus (PyDict earlier_store)
           (datetime_ymd 2026 1 20 + 10 * 3600 * 1000000 - timedelta_days 14)%Z
           example_table [example_row] [example_row]).
  - by_evaluation.
  - reflexivity.
  - reflexivity.
  - by_evaluation.
  - by_evaluation.
  - discriminate.
Defined.

(** The end-to-end scenario: a first run on the example listing
    notifies its matching row and records it after the url the store
    held; a second run on the same listing leaves every file as it is
    and ends with status 0. *)
Example two_runs :
  let first := run example_env earlier_files in
  let second := run example_env first.2 in
  first.1 = 0%Z ∧
  first.2 !! SUBJECT_FILE = Some "[('Nr. 33', '964B')]" ∧
  (load_sent_results false first.2).1 =
    Ok (PyDict (<[ "https://www.primaria-iasi.ro/dm/a.pdf" :=
                    record_of "20.01.2026 12:00:00" example_row ]> earlier_store)) ∧
  second = (0%Z, first.2).
Proof. intros first second. split; [|split; [|split]]; by_evaluation. Qed.

(** ** Further properties of a run *)

(** The selection at another threshold: it returns when the first does,
    a later threshold selects no more rows, and a selected row that is
    still recent is selected again. *)
Lemma select_other_threshold (results : list Row) (old_results : PyValue) (t1 t2 : Z)
    (first : list Row) :
  select results old_results t1 = Ok first →
  ∃ second,
    select results old_results t2 = Ok second ∧
    ((t1 ≤ t2)%Z → ∀ r, r ∈ second → r ∈ first) ∧
    (∀ r, r ∈ first → is_recent t2 r = true → r ∈ second).
Proof.
  unfold select. destruct (new_results _ old_results) as [new|e]; [|done].
  simpl. intros [= <-]. eexists. split; [done|]. unfold recent_new_results. split.
  - intros Hle r. rewrite !elem_of_List_filter, !is_recent_spec.
    intros (Hr & d & Hd & Hge). split; [done|]. exists d. split; [done | lia].
  - intros r. rewrite !elem_of_List_filter. by intros [Hr _] Hrec.
Qed.

(** A later threshold selects no more rows. *)
Lemma select_later (results : list Row) (old_results : PyValue) (t1 t2 : Z) :
  (t1 ≤ t2)%Z →
  select results old_results t1 = Ok [] → select results old_results t2 = Ok [].
Proof.
  intros Hle Hnil.
  destruct (select_other_threshold results old_results t1 t2 [] Hnil)
    as (second & -> & Hsub & _).
  f_equal. apply elem_of_nil_inv. intros r Hr. by apply Hsub, elem_of_nil in Hr.
Qed.

Section Runs.
Context `{PyLib} `{JsonCodec}.

(** X3. A failed write of the store is not fatal (lines 54-60): when
    the store read again at line 107 is a mapping, the run that reached
    the formatter ends with status 0, the subject and the body written,
    and the store file holds what the failed write left of it. *)
Theorem store_write_failure_is_not_fatal (env : Env) (fs : gmap string string)
    old (reloaded : Dict PyValue) t table results selected residue :
  load_sent_results (env_load_fails env) fs = (Ok old, fs) →
  two_weeks_before (env_now env) = Ok t →
  env_response env = Page (Some table) →
  extract_results search_terms table = Ok results →
  select results old t = Ok selected → selected ≠ [] →
  env_subject_write env = WriteOk →
  env_body_write env = WriteOk →
  (load_sent_results (env_reload_fails env) fs).1 = Ok (PyDict reloaded) →
  env_store_write env = WriteFail residue →
  (run env fs).1 = 0%Z ∧
  (run env fs).2 !! SUBJECT_FILE = Some (subject_content selected) ∧
  (run env fs).2 !! BODY_FILE = Some (body_content selected) ∧
  (run env fs).2 !! RESULTS_FILE =
    match residue with
    | Some junk => Some junk
    | None => fs !! RESULTS_FILE
    end.
Proof.
  intros Hold Ht Hresp Hres Hsel Hne Hs Hb Hre Hw.
  pose proof (format_returns env selected fs (PyDict reloaded) _ Hne Hs Hb Hre
                (mark_sent_dict _ _ _)) as Hf.
  rewrite (run_formatter_returns env fs _ old t table results selected true
             Hold Ht Hresp Hres Hsel Hne Hf).
  rewrite Hw. split; [done|]. unfold files_after_store, files_after_artifacts. simpl.
  destruct residue as [junk|].
  - rewrite !(lookup_insert_ne _ RESULTS_FILE) by (by vm_compute).
    split; [|split; [|apply lookup_insert_eq]].
    + rewrite lookup_insert_ne by (by vm_compute). apply lookup_insert_eq.
    + apply lookup_insert_eq.
  - split; [|split].
    + rewrite lookup_insert_ne by (by vm_compute). apply lookup_insert_eq.
    + apply lookup_insert_eq.
    + by rewrite !lookup_insert_ne by (by vm_compute).
Qed.

(** X5. Two runs in a row on the same page, the store file giving a
    mapping when the first run loads it, without I/O faults, the clock
    of the second not behind that of the first, and [json.load] reading
    back what the first run dumps: the second run writes no file, and
    ends with status 0 if the first did. *)
Theorem second_run_writes_nothing (env1 env2 : Env) (fs : gmap string string)
    (old : Dict PyValue) (t1 : Z) :
  load_sent_results false fs = (Ok (PyDict old), fs) →
  (∀ table results selected written,
     env_response env1 = Page (Some table) →
     extract_results search_terms table = Ok results →
     select results (PyDict old) t1 = Ok selected →
     mark_sent (env_timestamp env1) (PyDict old) selected = Ok written →
     json_load (json_dump written) = Some written) →
  env_load_fails env1 = false → env_reload_fails env1 = false →
  env_subject_write env1 = WriteOk → env_body_write env1 = WriteOk →
  env_store_write env1 = WriteOk →
  env_load_fails env2 = false →
  env_response env2 = env_response env1 →
  two_weeks_before (env_now env1) = Ok t1 →
  (env_now env1 ≤ env_now env2)%Z →
  let first := run env1 fs in
  let second := run env2 first.2 in
  second.2 = first.2 ∧ (first.1 = 0%Z → second.1 = 0%Z).
Proof.
  intros Hold Hcodec Hl1 Hr1 Hs1 Hb1 Hw1 Hl2 Hresp Ht1 Hnow first second.
  subst first second.
  set (t2 := (env_now env2 - timedelta_days 14)%Z).
  assert (Ht2 : two_weeks_before (env_now env2) = Ok t2).
  { apply two_weeks_before_Ok in Ht1 as [-> Hmin]. apply two_weeks_before_Ok.
    split; [done | unfold t2; lia]. }
  assert (Hle : (t1 ≤ t2)%Z).
  { apply two_weeks_before_Ok in Ht1 as [-> _]. unfold t2. lia. }
  destruct (env_response env1) as [|[table|]] eqn:Hresp1.
  - rewrite run_fetch_failed by done. simpl.
    by rewrite run_fetch_failed by done.
  - destruct (extract_results search_terms table) as [results|e] eqn:Hres.
    + destruct (select_dict_Ok results old t1) as [selected Hsel].
      destruct selected as [|r rows].
      * rewrite (run_nothing_selected env1 fs (PyDict old) t1 table results);
          [|by rewrite Hl1|done..].
        simpl.
        rewrite (run_nothing_selected env2 fs (PyDict old) t2 table results);
          [done|by rewrite Hl2|done..|].
        by apply (select_later results _ t1).
      * set (recorded := with_records (env_timestamp env1) old (r :: rows)).
        assert (Hmark : mark_sent (env_timestamp env1) (PyDict old) (r :: rows)
                          = Ok (PyDict recorded)) by apply mark_sent_dict.
        set (fs' := <[RESULTS_FILE := json_dump (PyDict recorded)]>
                      (files_after_artifacts (r :: rows) fs)).
        assert (Hf : format_results_as_html env1 (r :: rows) fs = (Ok true, fs')).
        { rewrite (format_returns env1 (r :: rows) fs (PyDict old) (PyDict recorded));
            [by rewrite Hw1 | done..| by rewrite Hr1, Hold | done]. }
        rewrite (run_formatter_returns env1 fs fs' (PyDict old) t1 table results
                   (r :: rows) true);
          [|by rewrite Hl1|done..].
        simpl.
        rewrite (run_nothing_selected env2 fs' (PyDict recorded) t2 table results);
          [done| |done..|].
        -- rewrite Hl2. apply load_after_dump.
           by apply (Hcodec table results (r :: rows)).
        -- by apply (select_after_mark_sent results old t1).
    + rewrite (run_extract_raises env1 fs t1 table e) by done. simpl.
      by rewrite (run_extract_raises env2 fs t2 table e) by done.
  - rewrite (run_missing_table env1 fs t1) by done. simpl.
    by rewrite (run_missing_table env2 fs t2) by done.
Qed.

(** X1. A failed fetch ends the run with status 1 and no file written
    (lines 176-178). *)
Theorem fetch_failure_is_fatal (env : Env) (fs : gmap string string) :
  env_response env = FetchFailed →
  (run env fs).1 = 1%Z ∧ (run env fs).2 = fs.
Proof. intros Hresp. by rewrite run_fetch_failed. Qed.

(** X2. A page without the table ends the run with status 0 and no file
    written (lines 132-134). *)
Theorem missing_table_is_not_an_error (env : Env) (fs : gmap string string) (t : Z) :
  two_weeks_before (env_now env) = Ok t →
  env_response env = Page None →
  (run env fs).1 = 0%Z ∧ (run env fs).2 = fs.
Proof. intros Ht Hresp. by rewrite (run_missing_table env fs t). Qed.

End Runs.

Lemma fetch_failure_is_fatal_witness :
  (run fetch_failed_env earlier_files).1 = 1%Z ∧
  (run fetch_failed_env earlier_files).2 = earlier_files.
Proof. apply (fetch_failure_is_fatal fetch_failed_env earlier_files). reflexivity. Defined.

Lemma missing_table_is_not_an_error_witness :
  (run missing_table_env earlier_files).1 = 0%Z ∧
  (run missing_table_env earlier_files).2 = earlier_files.
Proof.
  apply (missing_table_is_not_an_error missing_table_env earlier_files
           (env_now example_env - timedelta_days 14)%Z); reflexivity.
Defined.

Lemma store_write_failure_is_not_fatal_witness :
  (run store_failure_env earlier_files).1 = 0%Z ∧
  (run store_failure_env earlier_files).2 !! SUBJECT_FILE = Some "[('Nr. 33', '964B')]" ∧
  (run store_failure_env earlier_files).2 !! RESULTS_FILE = earlier_files !! RESULTS_FILE.
Proof.
  destruct (store_write_failure_is_not_fatal store_failure_env earlier_files
              (PyDict earlier_store) earlier_store
              (env_now example_env - timedelta_days 14)%Z
              example_table [example_row] [example_row] None)
    as (Hstatus & Hsubject & _ & Hstore);
    [by_evaluation | reflexivity | reflexivity | by_evaluation | by_evaluation
    | discriminate | reflexivity | reflexivity | by_evaluation | reflexivity |].
  split; [exact Hstatus|]. split; [|exact Hstore].
  rewrite Hsubject. by_evaluation.
Defined.

Lemma second_run_writes_nothing_witness :
  (run later_env (run example_env earlier_files).2).2 = (run example_env earlier_files).2 ∧
  ((run example_env earlier_files).1 = 0%Z →
   (run later_env (run example_env earlier_files).2).1 = 0%Z).
Proof.
  apply (second_run_writes_nothing example_env later_env earlier_files earlier_store
           (env_now example_env - timedelta_days 14)%Z).
  - by_evaluation.
  - intros table results selected written Hresp Hres Hsel Hmark.
    vm_compute in Hresp. injection Hresp as <-.
    vm_compute in Hres. injection Hres as <-.
    vm_compute in Hsel. injection Hsel as <-.
    vm_compute in Hmark. injection Hmark as <-.
    by_evaluation.
  - reflexivity.
  - reflexivity.
  - reflexivity.
  - reflexivity.
  - reflexivity.
  - reflexivity.
  - reflexivity.
  - reflexivity.
  - by vm_compute.
Defined.

(** ** The loop over the rows of the table *)

Lemma extract_loop_raised `{PyLib} terms (trs : list Tr) (e : exn) :
  foldl (λ acc columns, results ← acc; visit_row terms results columns) (Raise e) trs
    = Raise e.
Proof. induction trs as [|columns trs IH]; [done|]. exact IH. Qed.

Lemma visit_row_matched_row `{PyLib} terms results columns :
  well_linked columns →
  visit_row terms results columns =
  Ok (results ++ match matched_row terms columns with Some r => [r] | None => [] end).
Proof.
  intros Hwl. destruct columns as [|tc [|dc rest]];
    [by simpl; rewrite app_nil_r..|].
  destruct Hwl as [href Hh]. rewrite (visit_row_cells terms results tc dc rest href Hh).
  unfold matched_row. rewrite Hh. case_bool_decide; by rewrite ?app_nil_r.
Qed.

Lemma visit_row_broken_link `{PyLib} terms results columns :
  broken_link columns → visit_row terms results columns = Raise (Exception KeyError).
Proof.
  intros (tc & dc & rest & link & -> & Ha & Hh).
  unfold visit_row, cell_href. by rewrite Ha, Hh.
Qed.

(** X6. When no eligible row has an anchor without [href], the loop of
    lines 136-160 returns, in the order of the table, the rows of the
    table rows that have at least two cells and match a combination:
    rows with fewer than two cells and rows that match nothing add
    nothing, a table row listed twice is returned twice, and the result
    is never longer than the table. *)
Theorem extract_results_in_order `{PyLib} (terms : list (string * string)) (table : Table) :
  Forall well_linked (table_rows table) →
  extract_results terms table = Ok (omap (matched_row terms) (table_rows table)) ∧
  (length (omap (matched_row terms) (table_rows table)) ≤ length (table_rows table))%nat ∧
  (∀ columns, (length columns < 2)%nat → matched_row terms columns = None).
Proof.
  intros Hwl. split; [|split].
  - unfold extract_results.
    enough (Hacc : ∀ acc,
      foldl (λ acc columns, results ← acc; visit_row terms results columns)
        (Ok acc) (table_rows table) = Ok (acc ++ omap (matched_row terms) (table_rows table)))
      by apply (Hacc []).
    induction Hwl as [|columns trs Hc _ IH]; intros acc.
    + by rewrite app_nil_r.
    + cbn [foldl]. change (results ← Ok acc; visit_row terms results columns)
        with (visit_row terms acc columns).
      rewrite (visit_row_matched_row terms acc columns Hc), IH.
      rewrite <- List.app_assoc. simpl.
      by destruct (matched_row terms columns).
  - clear Hwl. induction (table_rows table) as [|columns trs IH]; [done|].
    change (omap (matched_row terms) (columns :: trs))
      with (match matched_row terms columns with
            | Some r => r :: omap (matched_row terms) trs
            | None => omap (matched_row terms) trs
            end).
    destruct (matched_row terms columns); simpl; lia.
  - intros [|tc [|dc rest]] Hlen; [done..|]. simpl in Hlen. lia.
Qed.

Lemma extract_results_in_order_witness :
  extract_results search_terms example_table =
    Ok (omap (matched_row search_terms) (table_rows example_table)) ∧
  omap (matched_row search_terms) (table_rows example_table) = [example_row].
Proof.
  split; [|by vm_compute].
  apply (extract_results_in_order search_terms example_table).
  repeat constructor; by eexists.
Defined.

(** X7. An eligible row whose first cell holds an anchor without [href]
    makes line 143 raise [KeyError], wherever the row stands and whether
    or not its title matches: the loop returns no result, and the run
    ends with status 1 and no file written (lines 179-181). *)
Theorem anchor_without_href_is_fatal `{PyLib} `{JsonCodec} (env : Env)
    (fs : gmap string string) (table : Table) (columns : Tr) (t : Z) :
  columns ∈ table_rows table →
  broken_link columns →
  extract_results search_terms table = Raise (Exception KeyError) ∧
  (two_weeks_before (env_now env) = Ok t →
   env_response env = Page (Some table) →
   run env fs = (1%Z, fs)).
Proof.
  intros Hin Hbroken.
  assert (Hraise : extract_results search_terms table = Raise (Exception KeyError)).
  { unfold extract_results.
    apply list_elem_of_split in Hin as (l1 & l2 & ->).
    rewrite foldl_app. cbn [foldl].
    destruct (foldl _ (Ok []) l1) as [acc|e] eqn:Hl1.
    - change (results ← Ok acc; visit_row search_terms results columns)
        with (visit_row search_terms acc columns).
      rewrite visit_row_broken_link by done. apply extract_loop_raised.
    - change (results ← Raise e; visit_row search_terms results columns)
        with (@Raise (list Row) e).
      rewrite extract_loop_raised.
      assert (He : e = Exception KeyError); [|by rewrite He].
      apply (extract_results_raises search_terms {| tbody := Some l1; all_tr := [] |}).
      exact Hl1. }
  split; [done|]. intros Ht Hresp.
  unfold run, main, scrape_parking_auctions. unfold_M.
  destruct (load_sent_results_total (env_load_fails env) fs) as [old ->].
  by rewrite Ht, Hresp, Hraise.
Qed.

Lemma anchor_without_href_is_fatal_witness :
  extract_results search_terms table_with_broken_link = Raise (Exception KeyError) ∧
  run broken_link_env earlier_files = (1%Z, earlier_files).
Proof.
  destruct (anchor_without_href_is_fatal broken_link_env earlier_files
              table_with_broken_link
              [ td "Anunt" (Some {| a_text := "Anunt"; a_href := None |});
                td "16.01.2026" None ]
              (env_now example_env - timedelta_days 14)%Z) as [Hraise Hrun].
  - right. by left.
  - by do 4 eexists.
  - split; [exact Hraise|]. by apply Hrun.
Defined.

(** ** The order of the selected rows *)

Lemma StronglySorted_List_filter {A} (R : relation A) (f : A → bool) (l : list A) :
  StronglySorted R l → StronglySorted R (List.filter f l).
Proof.
  induction 1 as [|x l Hl IH Hx]; simpl; [constructor|].
  destruct (f x); [|done]. constructor; [done|].
  rewrite Forall_forall in Hx |- *. intros y Hy.
  apply elem_of_List_filter in Hy as [Hy _]. by apply Hx.
Qed.

Lemma sublist_List_filter {A} (f : A → bool) (l : list A) : sublist (List.filter f l) l.
Proof.
  induction l as [|x l IH]; simpl; [constructor|].
  destruct (f x); by constructor.
Qed.

Lemma select_Ok_filter (results : list Row) (old_results : PyValue) (t : Z)
    (selected : list Row) :
  select results old_results t = Ok selected →
  selected = List.filter (is_recent t)
               (List.filter (λ r, negb (known_url old_results (pdf_url r)))
                  (sort_reverse sort_key results)).
Proof.
  intros Hsel. destruct (iterable old_results) eqn:Hit.
  - rewrite select_iterable in Hsel by done. by injection Hsel.
  - rewrite select_not_iterable in Hsel by done.
    destruct results; [|done]. by injection Hsel as <-.
Qed.

(** X8. The rows handed to the formatter stand latest date first: each
    has a parsed date, not earlier than the threshold, and of two of
    them the earlier in the list is not dated before the later.  They
    are rows of the sorted results in their order, so at most as many as
    the results. *)
Theorem selected_rows_latest_first (results : list Row) (old_results : PyValue)
    (two_weeks_ago : Z) (selected : list Row) :
  select results old_results two_weeks_ago = Ok selected →
  (∀ r, r ∈ selected → ∃ d, date r = Some d ∧ (two_weeks_ago ≤ d)%Z) ∧
  (∀ i j ri rj, (i < j)%nat → selected !! i = Some ri → selected !! j = Some rj →
     ∃ di dj, date ri = Some di ∧ date rj = Some dj ∧ (dj ≤ di)%Z) ∧
  sublist selected (sort_reverse sort_key results) ∧
  (length selected ≤ length results)%nat.
Proof.
  intros Hsel.
  assert (Hdate : ∀ r, r ∈ selected → ∃ d, date r = Some d ∧ (two_weeks_ago ≤ d)%Z).
  { intros r Hr. apply (elem_of_select _ _ _ _ _ Hsel) in Hr as (_ & _ & Hrec).
    by apply is_recent_spec in Hrec. }
  apply select_Ok_filter in Hsel.
  assert (Hsub : sublist selected (sort_reverse sort_key results)).
  { rewrite Hsel. etrans; apply sublist_List_filter. }
  split; [exact Hdate|]. split; [|split; [done|]].
  - intros i j ri rj Hij Hi Hj.
    assert (Hsorted : StronglySorted (key_ge sort_key) selected).
    { rewrite Hsel. do 2 apply StronglySorted_List_filter. apply sort_reverse_sorted. }
    pose proof (StronglySorted_lookup_lt _ _ _ _ _ _ Hsorted Hi Hj Hij) as Hk.
    destruct (Hdate ri) as (di & Hdi & _); [by eapply list_elem_of_lookup_2|].
    destruct (Hdate rj) as (dj & Hdj & _); [by eapply list_elem_of_lookup_2|].
    exists di, dj. unfold key_ge, sort_key in Hk. rewrite Hdi, Hdj in Hk.
    split; [done|]. split; [done | lia].
  - apply sublist_length in Hsub. by rewrite sort_reverse_Permutation in Hsub.
Qed.

(** Of the rows dated 2026-01-01, 2026-01-15 and without a date, a run
    of 2026-01-20 selects the first two, the later first. *)
Lemma selected_rows_latest_first_witness :
  select [row_dated "01.01.2026"; row_dated "15.01.2026"; row_dated "n/a"] (PyDict ∅)
    (datetime_ymd 2026 1 20 - timedelta_days 28)%Z
    = Ok [row_dated "15.01.2026"; row_dated "01.01.2026"] ∧
  ∃ d, date (row_dated "15.01.2026") = Some d ∧
       (datetime_ymd 2026 1 20 - timedelta_days 28 ≤ d)%Z.
Proof.
  assert (Hsel : select [row_dated "01.01.2026"; row_dated "15.01.2026"; row_dated "n/a"]
                   (PyDict ∅) (datetime_ymd 2026 1 20 - timedelta_days 28)%Z
                 = Ok [row_dated "15.01.2026"; row_dated "01.01.2026"]) by by_evaluation.
  split; [exact Hsel|].
  destruct (selected_rows_latest_first _ _ _ _ Hsel) as [Hdate _].
  apply Hdate. by left.
Defined.

(** ** The subject and the body *)

(** X9. The subject depends only on which labels the rows carry: two
    lists of rows with the same labels give the same subject, whatever
    the order of the rows and however often a label occurs. *)
Theorem subject_depends_on_labels_only (rows rows' : list Row) :
  (∀ label, (∃ r, r ∈ rows ∧ label ∈ matched_terms r) ↔
            (∃ r, r ∈ rows' ∧ label ∈ matched_terms r)) →
  subject_content rows = subject_content rows'.
Proof.
  intros Hsame. unfold subject_content.
  assert (Heq : all_matched_terms rows = all_matched_terms rows'); [|by rewrite Heq].
  apply set_eq. intros label. by rewrite !elem_of_all_matched_terms.
Qed.

(** Reordering the rows and repeating one leave the subject as it is. *)
Lemma subject_depends_on_labels_only_witness :
  subject_content [row_dated "15.01.2026"; example_row; example_row]
  = subject_content [example_row; row_dated "15.01.2026"].
Proof.
  apply subject_depends_on_labels_only. intros label. split.
  - intros (r & Hr & Hl). apply elem_of_cons in Hr as [-> | Hr].
    + exists (row_dated "15.01.2026"). split; [|done]. right. by left.
    + exists example_row. split; [by left|].
      apply elem_of_cons in Hr as [-> | Hr]; [done|].
      by apply list_elem_of_singleton in Hr as ->.
  - intros (r & Hr & Hl). apply elem_of_cons in Hr as [-> | Hr].
    + exists example_row. split; [|done]. right. by left.
    + apply list_elem_of_singleton in Hr as ->.
      exists (row_dated "15.01.2026"). split; [by left | done].
Defined.

Lemma str_in_self (s : string) : str_in s s = true.
Proof. apply str_in_spec. exists "", "". by rewrite append_empty_r. Qed.

Lemma str_in_app_l (needle a b : string) :
  str_in needle a = true → str_in needle (a +:+ b) = true.
Proof.
  rewrite !str_in_spec. intros (pre & post & ->).
  exists pre, (post +:+ b). by rewrite !append_assoc.
Qed.

Lemma str_in_app_r (needle a b : string) :
  str_in needle b = true → str_in needle (a +:+ b) = true.
Proof.
  rewrite !str_in_spec. intros (pre & post & ->).
  exists (a +:+ pre), post. by rewrite !append_assoc.
Qed.

Lemma str_in_str_join (sep x : string) (l : list string) :
  x ∈ l → str_in x (str_join sep l) = true.
Proof.
  induction l as [|y l IH]; intros Hin; [by apply elem_of_nil in Hin|].
  apply elem_of_cons in Hin as [-> | Hin].
  - destruct l; [apply str_in_self|]. cbn [str_join]. apply str_in_app_l, str_in_self.
  - destruct l as [|z l]; [by apply elem_of_nil in Hin|].
    change (str_join sep (y :: z :: l)) with (y +:+ sep +:+ str_join sep (z :: l)).
    by apply str_in_app_r, str_in_app_r, IH.
Qed.

Lemma body_entries_app (l1 l2 : list Row) :
  body_entries (l1 ++ l2) = body_entries l1 +:+ body_entries l2.
Proof.
  induction l1 as [|r l1 IH]; [done|].
  cbn [app body_entries]. by rewrite IH, append_assoc.
Qed.

(** X10. The body is its heading, which gives the number of rows,
    followed by one entry for each row in the order of the rows; the
    title, the url, the date text and every matched label of each row
    stand in the body as they are, with no character replaced. *)
Theorem body_lists_every_row (rows : list Row) :
  body_content rows = body_header (length rows) +:+ body_entries rows ∧
  (∀ r, r ∈ rows →
     str_in (title r) (body_content rows) = true ∧
     str_in (pdf_url r) (body_content rows) = true ∧
     str_in (date_str r) (body_content rows) = true ∧
     (∀ label, label ∈ matched_terms r → str_in label (body_content rows) = true)).
Proof.
  assert (Hbody : body_content rows = body_header (length rows) +:+ body_entries rows).
  { unfold body_content, body_header.
    generalize ("<h4>Found " +:+ pretty (length rows)
                  +:+ " recent new matching auctions:</h4>" +:+ "<hr>").
    induction rows as [|r rows IH]; intros header; simpl.
    - by rewrite append_empty_r.
    - by rewrite IH, append_assoc. }
  split; [done|]. intros r Hr. rewrite Hbody.
  apply list_elem_of_split in Hr as (l1 & l2 & ->).
  rewrite body_entries_app. cbn [body_entries].
  assert (Hentry : ∀ x, str_in x (body_entry r) = true →
            str_in x (body_header (length (l1 ++ r :: l2)) +:+
                      body_entries l1 +:+ body_entry r +:+ body_entries l2) = true).
  { intros x Hx. by apply str_in_app_r, str_in_app_r, str_in_app_l. }
  unfold body_entry in Hentry at 1.
  split; [|split; [|split]].
  - apply Hentry. apply str_in_app_r, str_in_app_r, str_in_app_l, str_in_self.
  - apply Hentry. do 6 apply str_in_app_r. apply str_in_app_l, str_in_self.
  - apply Hentry. do 10 apply str_in_app_r. apply str_in_app_l, str_in_self.
  - intros label Hl. apply Hentry. do 13 apply str_in_app_r.
    by apply str_in_app_l, str_in_str_join.
Qed.

Lemma body_lists_every_row_witness :
  str_in "Licitatie Nr. 33 teren parcare 964B" (body_content [example_row]) = true ∧
  str_in "https://www.primaria-iasi.ro/dm/a.pdf" (body_content [example_row]) = true.
Proof.
  destruct (body_lists_every_row [example_row]) as [_ Hall].
  destruct (Hall example_row) as (Htitle & Hurl & _); [by left|].
  by split.
Defined.


(** ** The records of the store *)

(** X11. On a mapping the loop of lines 108-109 returns a mapping:
    recording rows adds their urls to the keys of the store and removes
    none; the record of a url that no row has is untouched; the record
    of a url that some row has is the record of one of the rows with
    that url, stamped with the time of this run. *)
Theorem mark_sent_records (timestamp : string) (old_results : Dict PyValue)
    (rows : list Row) :
  ∃ recorded,
    mark_sent timestamp (PyDict old_results) rows = Ok (PyDict recorded) ∧
    dom recorded = dom old_results ∪ list_to_set (pdf_url <$> rows) ∧
    (∀ k, (∀ r, r ∈ rows → pdf_url r ≠ k) → recorded !! k = old_results !! k) ∧
    (∀ k, k ∈ pdf_url <$> rows →
       ∃ r, r ∈ rows ∧ pdf_url r = k ∧ recorded !! k = Some (record_of timestamp r)).
Proof.
  exists (with_records timestamp old_results rows).
  split; [apply mark_sent_dict|]. split; [|split].
  - apply set_eq. intros k.
    rewrite elem_of_dict_dom, with_records_is_Some, elem_of_union, elem_of_dict_dom,
      elem_of_list_to_set, list_elem_of_fmap.
    split; (intros [? | (r & ? & ?)]; [by left | right; by exists r]).
  - intros k Hk. by apply with_records_lookup_ne.
  - induction rows as [|x rows IH] using rev_ind; intros k Hk.
    + by apply elem_of_nil in Hk.
    + unfold with_records. rewrite foldl_snoc.
      fold (with_records timestamp old_results rows).
      destruct (decide (pdf_url x = k)) as [<- | Hne].
      * exists x. rewrite elem_of_app, list_elem_of_singleton.
        split; [by right|]. split; [done|]. apply dict_lookup_insert_eq.
      * rewrite fmap_app, elem_of_app in Hk. destruct Hk as [Hk | Hk].
        2:{ apply list_elem_of_singleton in Hk. by subst k. }
        destruct (IH k Hk) as (r & Hr & Hurl & Hrec). exists r.
        rewrite elem_of_app. split; [by left|]. split; [done|].
        by rewrite dict_lookup_insert_ne.
Qed.

(** ** What the formatter leaves in the files *)

(** X12. When the store cannot be read again at line 107, the writer
    starts from an empty mapping: the store file it writes holds the
    records of the rows of this run and nothing else, so every url
    recorded before that no row of this run has is forgotten. *)
Theorem reload_failure_forgets_store `{JsonCodec} (env : Env) (rows : list Row)
    (fs : gmap string string) :
  rows ≠ [] →
  env_subject_write env = WriteOk → env_body_write env = WriteOk →
  env_store_write env = WriteOk →
  env_reload_fails env = true →
  ∃ fs' m,
    format_results_as_html env rows fs = (Ok true, fs') ∧
    mark_sent (env_timestamp env) (PyDict ∅) rows = Ok (PyDict m) ∧
    fs' !! RESULTS_FILE = Some (json_dump (PyDict m)) ∧
    (∀ k, (∀ r, r ∈ rows → pdf_url r ≠ k) → m !! k = None) ∧
    (json_load (json_dump (PyDict m)) = Some (PyDict m) →
     load_sent_results false fs' = (Ok (PyDict m), fs')).
Proof.
  intros Hrows Hs Hb Hw Hre.
  set (m := with_records (env_timestamp env) ∅ rows).
  pose proof (format_returns env rows fs (PyDict ∅) (PyDict m) Hrows Hs Hb) as Hf.
  rewrite Hre, load_sent_results_read_fails, Hw in Hf.
  specialize (Hf eq_refl (mark_sent_dict _ _ _)).
  eexists _, m. split; [exact Hf|]. split; [apply mark_sent_dict|].
  split; [apply lookup_insert_eq|]. split.
  - intros k Hk. unfold m. by rewrite with_records_lookup_ne.
  - intros Hcodec. by apply load_after_dump.
Qed.

Lemma reload_failure_forgets_store_witness :
  ∃ fs' m,
    format_results_as_html reload_failure_env [example_row] earlier_files = (Ok true, fs') ∧
    load_sent_results false fs' = (Ok (PyDict m), fs') ∧
    m !! "https://www.primaria-iasi.ro/dm/old.pdf" = None.
Proof.
  destruct (reload_failure_forgets_store reload_failure_env [example_row] earlier_files)
    as (fs' & m & Hf & Hmark & _ & Hgone & Hload); [done..|].
  exists fs', m. split; [done|]. split.
  - apply Hload. vm_compute in Hmark. injection Hmark as <-. by_evaluation.
  - apply Hgone. intros r Hr. apply list_elem_of_singleton in Hr as ->. by vm_compute.
Defined.

(** ** The outcomes of a run *)

Section Outcomes.
Context `{PyLib} `{JsonCodec}.

Lemma touches_own_files_refl (fs : gmap string string) : touches_own_files fs fs.
Proof. by split. Qed.

Lemma touches_own_files_insert (fs fs' : gmap string string) (f content : string) :
  written_by_run f → touches_own_files fs fs' →
  touches_own_files fs (<[f := content]> fs').
Proof.
  intros Hf [Hother Hkept]. split.
  - intros g Hg. rewrite lookup_insert_ne; [by apply Hother|]. by intros ->.
  - intros g Hg. apply lookup_insert_is_Some'. right. by apply Hkept.
Qed.

Lemma write_text_touches (o : write_outcome) (f content : string)
    (fs0 fs : gmap string string) :
  written_by_run f → touches_own_files fs0 fs →
  touches_own_files fs0 (write_text o f content fs).2.
Proof.
  intros Hf Hfs. destruct o as [|[junk|]]; simpl.
  - by apply touches_own_files_insert.
  - by apply touches_own_files_insert.
  - exact Hfs.
Qed.

(** What the formatter may return, and the files it may touch. *)
Lemma format_outcomes (env : Env) (rows : list Row) (fs : gmap string string) :
  ((format_results_as_html env rows fs).1 = Ok true ∨
   (format_results_as_html env rows fs).1 = Ok false ∨
   (format_results_as_html env rows fs).1 = Raise (SystemExit 1) ∨
   (format_results_as_html env rows fs).1 = Raise (Exception TypeError)) ∧
  touches_own_files fs (format_results_as_html env rows fs).2.
Proof.
  destruct rows as [|r rows]; [split; [by right; left | apply touches_own_files_refl]|].
  unfold format_results_as_html, write_file_output, save_results. unfold_M.
  pose proof (write_text_touches (env_subject_write env) SUBJECT_FILE
                (subject_content (r :: rows)) fs fs) as Hs.
  destruct (write_text (env_subject_write env) SUBJECT_FILE _ fs) as [[[]|[code| |c]] fs1] eqn:H1;
    try (by destruct (env_subject_write env) as [|[?|]]).
  2:{ simpl. split; [by right; right; left|].
      apply Hs; [by left | apply touches_own_files_refl]. }
  pose proof (write_text_touches (env_body_write env) BODY_FILE
                (body_content (r :: rows)) fs fs1) as Hb.
  simpl in Hs. specialize (Hs (or_introl eq_refl) (touches_own_files_refl fs)).
  destruct (write_text (env_body_write env) BODY_FILE _ fs1) as [[[]|[code| |c]] fs2] eqn:H2;
    try (by destruct (env_body_write env) as [|[?|]]).
  2:{ simpl. split; [by right; right; left|]. apply Hb; [by right; left | done]. }
  simpl in Hb. specialize (Hb (or_intror (or_introl eq_refl)) Hs).
  destruct (load_sent_results_total (env_reload_fails env) fs2) as [old ->].
  cbv beta iota zeta.
  destruct (mark_sent (env_timestamp env) old (r :: rows)) as [recorded|e] eqn:Hmark.
  2:{ apply mark_sent_raises in Hmark as ->. simpl. split; [by right; right; right | done]. }
  pose proof (write_text_touches (env_store_write env) RESULTS_FILE
                (json_dump recorded) fs fs2) as Hw.
  specialize (Hw (or_intror (or_intror eq_refl)) Hb).
  destruct (write_text (env_store_write env) RESULTS_FILE _ fs2) as [[[]|[code| |c]] fs3] eqn:H3;
    try (by destruct (env_store_write env) as [|[?|]]).
  - simpl. split; [by left | done].
  - simpl. split; [by left | done].
Qed.

Arguments format_results_as_html : simpl never.

(** X13. Every run ends with exit status 0 or 1.  It writes no file
    other than the subject, the body and the store, and removes none. *)
Theorem run_status_and_files (env : Env) (fs : gmap string string) :
  ((run env fs).1 = 0%Z ∨ (run env fs).1 = 1%Z) ∧
  (∀ f, f ≠ SUBJECT_FILE → f ≠ BODY_FILE → f ≠ RESULTS_FILE →
     (run env fs).2 !! f = fs !! f) ∧
  (∀ f, is_Some (fs !! f) → is_Some ((run env fs).2 !! f)).
Proof.
  enough (Hrun : ((run env fs).1 = 0%Z ∨ (run env fs).1 = 1%Z) ∧
                 touches_own_files fs (run env fs).2).
  { destruct Hrun as [Hstatus [Hother Hkept]]. split; [done|]. split; [|done].
    intros f H1 H2 H3. apply Hother. by intros [? | [? | ?]]. }
  destruct (load_sent_results_total (env_load_fails env) fs) as [old Hold].
  destruct (two_weeks_before (env_now env)) as [t|e] eqn:Ht.
  2:{ unfold run, main, scrape_parking_auctions. unfold_M. rewrite Hold, Ht.
      apply two_weeks_before_raises in Ht as ->. simpl.
      split; [by right | apply touches_own_files_refl]. }
  destruct (env_response env) as [|[table|]] eqn:Hresp.
  - rewrite run_fetch_failed by done. split; [by right | apply touches_own_files_refl].
  - destruct (extract_results search_terms table) as [results|e] eqn:Hres.
    2:{ rewrite (run_extract_raises env fs t table e) by done.
        split; [by right | apply touches_own_files_refl]. }
    rewrite (run_selects env fs old t table results) by done.
    destruct (select results old t) as [[|r rows]|e];
      [split; [by left | apply touches_own_files_refl] |
      |split; [by right | apply touches_own_files_refl]].
    destruct (format_outcomes env (r :: rows) fs) as [Hout Hfiles].
    destruct (format_results_as_html env (r :: rows) fs) as [out fs'].
    simpl in Hout, Hfiles.
    destruct Hout as [-> | [-> | [-> | ->]]]; simpl; (split; [auto | exact Hfiles]).
  - rewrite (run_missing_table env fs t) by done.
    split; [by left | apply touches_own_files_refl].
Qed.

(** X14. A run that selects rows, whose writes succeed and in which the
    store read again at line 107 is a mapping, ends with status 0; the
    subject file then holds the subject of the selected rows, the body
    file their body, and the store file the text [json.dump] writes for
    the mapping read at line 107 with the selected rows recorded. *)
Theorem successful_run_files (env : Env) (fs : gmap string string)
    (old : PyValue) (reloaded : Dict PyValue) (t : Z) (table : Table)
    (results selected : list Row) :
  load_sent_results (env_load_fails env) fs = (Ok old, fs) →
  two_weeks_before (env_now env) = Ok t →
  env_response env = Page (Some table) →
  extract_results search_terms table = Ok results →
  select results old t = Ok selected → selected ≠ [] →
  env_subject_write env = WriteOk → env_body_write env = WriteOk →
  env_store_write env = WriteOk →
  (load_sent_results (env_reload_fails env) fs).1 = Ok (PyDict reloaded) →
  ∃ recorded,
    mark_sent (env_timestamp env) (PyDict reloaded) selected = Ok recorded ∧
    (run env fs).1 = 0%Z ∧
    (run env fs).2 !! SUBJECT_FILE = Some (subject_content selected) ∧
    (run env fs).2 !! BODY_FILE = Some (body_content selected) ∧
    (run env fs).2 !! RESULTS_FILE = Some (json_dump recorded).
Proof.
  intros Hold Ht Hresp Hres Hsel Hne Hs Hb Hw Hre.
  eexists. split; [apply mark_sent_dict|].
  pose proof (format_returns env selected fs (PyDict reloaded) _ Hne Hs Hb Hre
                (mark_sent_dict _ _ _)) as Hf.
  rewrite (run_formatter_returns env fs _ old t table results selected true
             Hold Ht Hresp Hres Hsel Hne Hf).
  rewrite Hw. split; [done|]. unfold files_after_store, files_after_artifacts. simpl.
  split; [|split].
  - rewrite lookup_insert_ne by (by vm_compute).
    rewrite lookup_insert_ne by (by vm_compute). apply lookup_insert_eq.
  - rewrite lookup_insert_ne by (by vm_compute). apply lookup_insert_eq.
  - apply lookup_insert_eq.
Qed.

(** X4. A run that selects no row (nothing matched, everything matched
    was notified before, or nothing new is recent) ends with status 0
    and writes no file (lines 168-174). *)
Theorem nothing_to_notify_is_success (env : Env) (fs : gmap string string)
    (old : PyValue) (t : Z) (table : Table) (results : list Row) :
  load_sent_results (env_load_fails env) fs = (Ok old, fs) →
  two_weeks_before (env_now env) = Ok t →
  env_response env = Page (Some table) →
  extract_results search_terms table = Ok results →
  select results old t = Ok [] →
  run env fs = (0%Z, fs).
Proof. intros Hold Ht Hresp Hres Hsel. by eapply run_nothing_selected. Qed.


End Outcomes.

Lemma successful_run_files_witness :
  (run example_env earlier_files).1 = 0%Z ∧
  (run example_env earlier_files).2 !! SUBJECT_FILE = Some (subject_content [example_row]) ∧
  (run example_env earlier_files).2 !! RESULTS_FILE =
    Some (json_dump
            (PyDict (<[pdf_url example_row := record_of "20.01.2026 12:00:00" example_row]>
                       earlier_store))).
Proof.
  destruct (successful_run_files example_env earlier_files (PyDict earlier_store)
              earlier_store (env_now example_env - timedelta_days 14)%Z example_table
              [example_row] [example_row])
    as (recorded & Hmark & Hstatus & Hsubject & _ & Hstore);
    [by_evaluation | reflexivity | reflexivity | by_evaluation | by_evaluation
    | discriminate | reflexivity | reflexivity | reflexivity | by_evaluation |].
  split; [exact Hstatus|]. split; [exact Hsubject|].
  rewrite Hstore. vm_compute in Hmark. injection Hmark as <-. by_evaluation.
Defined.

Lemma nothing_to_notify_is_success_witness :
  run month_later_env earlier_files = (0%Z, earlier_files).
Proof.
  apply (nothing_to_notify_is_success month_later_env earlier_files (PyDict earlier_store)
           (env_now month_later_env - timedelta_days 14)%Z example_table [example_row]).
  - by_evaluation.
  - reflexivity.
  - reflexivity.
  - by_evaluation.
  - by_evaluation.
Defined.


(** ** Rows without an anchor, and the order of the labels *)

(** X15. Every matched row whose first cell has no anchor gets the same
    url, the base url followed by the text [None]: once one such row is
    recorded, no other row without an anchor is ever selected, whatever
    its title and date. *)
Theorem anchorless_rows_share_one_url `{PyLib} (terms : list (string * string))
    (title_col1 date_col1 title_col2 date_col2 : Td) (results : list Row)
    (old_results : Dict PyValue) (timestamp : string) (t : Z) :
  td_a title_col1 = None → td_a title_col2 = None →
  cell_href title_col1 = Ok None ∧ cell_href title_col2 = Ok None ∧
  pdf_url (row_of_cells terms title_col1 date_col1 None) = base_url +:+ "None" ∧
  pdf_url (row_of_cells terms title_col2 date_col2 None) = base_url +:+ "None" ∧
  ∃ recorded selected,
    mark_sent timestamp (PyDict old_results)
      [row_of_cells terms title_col1 date_col1 None] = Ok (PyDict recorded) ∧
    select results (PyDict recorded) t = Ok selected ∧
    row_of_cells terms title_col2 date_col2 None ∉ selected.
Proof.
  intros Ha1 Ha2. unfold cell_href. rewrite Ha1, Ha2.
  split; [done|]. split; [done|]. split; [done|]. split; [done|].
  set (row1 := row_of_cells terms title_col1 date_col1 None).
  set (recorded := with_records timestamp old_results [row1]).
  destruct (select_dict_Ok results recorded t) as [selected Hsel].
  exists recorded, selected. split; [apply mark_sent_dict|]. split; [done|].
  intros Hin. apply (elem_of_select_dict _ _ _ _ _ Hsel) in Hin as (_ & Hnone & _).
  apply eq_None_not_Some in Hnone. apply Hnone, with_records_is_Some.
  right. exists row1. split; [apply list_elem_of_here | done].
Qed.

Lemma anchorless_rows_share_one_url_witness :
  ∃ recorded selected,
    mark_sent "02.02.2026 09:00:00" (PyDict ∅)
      [row_of_cells search_terms (td "Parcare Tudor Neculai 971A" None)
         (td "02.02.2026" None) None] = Ok (PyDict recorded) ∧
    select
      [row_of_cells search_terms (td "Parcare Tudor Neculai 971B" None)
         (td "03.02.2026" None) None]
      (PyDict recorded) (datetime_ymd 2026 2 3 - timedelta_days 14)%Z = Ok selected ∧
    (row_of_cells search_terms (td "Parcare Tudor Neculai 971B" None)
       (td "03.02.2026" None) None ∉ selected) ∧
    is_recent (datetime_ymd 2026 2 3 - timedelta_days 14)%Z
      (row_of_cells search_terms (td "Parcare Tudor Neculai 971B" None)
         (td "03.02.2026" None) None) = true.
Proof.
  destruct (anchorless_rows_share_one_url search_terms
              (td "Parcare Tudor Neculai 971A" None) (td "02.02.2026" None)
              (td "Parcare Tudor Neculai 971B" None) (td "03.02.2026" None)
              [row_of_cells search_terms (td "Parcare Tudor Neculai 971B" None)
                 (td "03.02.2026" None) None]
              ∅ "02.02.2026 09:00:00" (datetime_ymd 2026 2 3 - timedelta_days 14)%Z)
    as (_ & _ & _ & _ & recorded & selected & Hmark & Hsel & Hout);
    [reflexivity | reflexivity |].
  exists recorded, selected. split; [exact Hmark|]. split; [exact Hsel|].
  split; [exact Hout | reflexivity].
Defined.

(** X16. The labels of a title stand in the order of the configured
    combinations, one for each combination that passes the test of
    line 154 (a combination configured twice gives its label twice):
    the labels for two lists of combinations one after the other are
    the labels for the first followed by those for the second, and
    there are never more labels than combinations. *)
Theorem labels_in_configured_order `{PyLib} (title_lower : string)
    (terms terms' : list (string * string)) :
  matching_combos title_lower (terms ++ terms')
    = matching_combos title_lower terms ++ matching_combos title_lower terms' ∧
  (∀ term1 term2,
     matching_combos title_lower [(term1, term2)] =
     if str_in (lower term1) title_lower && str_in (lower term2) title_lower
     then [combo_label term1 term2] else []) ∧
  (length (matching_combos title_lower terms) ≤ length terms)%nat.
Proof.
  split; [|split].
  - rewrite !matching_combos_filter. by rewrite List.filter_app, fmap_app.
  - intros term1 term2. unfold matching_combos. simpl.
    by destruct (str_in (lower term1) title_lower && str_in (lower term2) title_lower).
  - rewrite matching_combos_filter, length_fmap. apply List.filter_length_le.
Qed.


(** ** A run after a failed write of the store *)

(** X17. When the store read again at line 107 is a mapping and the
    write of the store fails, leaving the file as it was or with a text
    that [json.load] rejects, the run ends with status 0 and the next
    run loads what the first loaded or an empty mapping: it selects
    again every row the first run selected that is still recent. *)
Theorem store_failure_renotifies `{PyLib} `{JsonCodec} (env1 env2 : Env)
    (fs : gmap string string) (old : PyValue) (reloaded : Dict PyValue) (t1 t2 : Z)
    (table : Table) (results selected : list Row) (residue : option string) :
  (∀ junk, residue = Some junk → json_load junk = None) →
  env_load_fails env1 = false →
  load_sent_results (env_load_fails env1) fs = (Ok old, fs) →
  two_weeks_before (env_now env1) = Ok t1 →
  env_response env1 = Page (Some table) →
  extract_results search_terms table = Ok results →
  select results old t1 = Ok selected → selected ≠ [] →
  env_subject_write env1 = WriteOk → env_body_write env1 = WriteOk →
  (load_sent_results (env_reload_fails env1) fs).1 = Ok (PyDict reloaded) →
  env_store_write env1 = WriteFail residue →
  (run env1 fs).1 = 0%Z ∧
  ∃ old2 second,
    load_sent_results (env_load_fails env2) (run env1 fs).2 = (Ok old2, (run env1 fs).2) ∧
    (old2 = old ∨ old2 = PyDict ∅) ∧
    select results old2 t2 = Ok second ∧
    (∀ r, r ∈ selected → is_recent t2 r = true → r ∈ second).
Proof.
  intros Hjunk Hl1 Hold Ht1 Hresp Hres Hsel Hne Hs Hb Hre Hw.
  pose proof (format_returns env1 selected fs (PyDict reloaded) _ Hne Hs Hb Hre
                (mark_sent_dict _ _ _)) as Hf.
  rewrite (run_formatter_returns env1 fs _ old t1 table results selected true
             Hold Ht1 Hresp Hres Hsel Hne Hf).
  split; [done|]. rewrite Hw. cbn [fst snd].
  set (fs1 := files_after_artifacts selected fs).
  set (text := json_dump (PyDict (with_records (env_timestamp env1) reloaded selected))).
  assert (Hload : ∃ old2,
    load_sent_results (env_load_fails env2) (files_after_store (WriteFail residue) text fs1)
      = (Ok old2, files_after_store (WriteFail residue) text fs1) ∧
    (old2 = old ∨ old2 = PyDict ∅)).
  { destruct residue as [junk|]; simpl.
    - exists (PyDict ∅). split; [|by right].
      apply (load_sent_results_rejected _ junk); [apply lookup_insert_eq | by apply Hjunk].
    - destruct (env_load_fails env2) eqn:Hl2.
      + exists (PyDict ∅). split; [apply load_sent_results_read_fails | by right].
      + destruct (load_sent_results_total false fs1) as [value Hvalue].
        exists value. split; [done | left].
        pose proof (load_sent_results_ext false fs1 fs
                      (files_after_artifacts_store selected fs)) as Hsame.
        rewrite Hvalue in Hsame. rewrite Hl1 in Hold. rewrite Hold in Hsame.
        by injection Hsame. }
  destruct Hload as (old2 & Hload & Hold2). exists old2.
  destruct Hold2 as [-> | ->].
  - destruct (select_other_threshold results old t1 t2 selected Hsel)
      as (second & Hsecond & _ & Hagain).
    exists second. split; [done|]. split; [by left|]. by split.
  - destruct (select_dict_Ok results ∅ t2) as [second Hsecond].
    exists second. split; [done|]. split; [by right|]. split; [done|].
    intros r Hr Hrec. apply (elem_of_select_dict _ _ _ _ _ Hsecond).
    apply (elem_of_select _ _ _ _ _ Hsel) in Hr as (Hr & _ & _).
    split; [done|]. split; [apply dict_lookup_empty | done].
Qed.

Lemma store_failure_renotifies_witness :
  (run store_failure_env earlier_files).1 = 0%Z ∧
  ∃ old2 second,
    load_sent_results (env_load_fails later_env) (run store_failure_env earlier_files).2
      = (Ok old2, (run store_failure_env earlier_files).2) ∧
    select [example_row] old2 (env_now later_env - timedelta_days 14)%Z = Ok second ∧
    example_row ∈ second.
Proof.
  destruct (store_failure_renotifies store_failure_env later_env earlier_files
              (PyDict earlier_store) earlier_store
              (env_now example_env - timedelta_days 14)%Z
              (env_now later_env - timedelta_days 14)%Z
              example_table [example_row] [example_row] None)
    as (Hstatus & old2 & second & Hload & _ & Hsecond & Hagain);
    [done | reflexivity | by_evaluation | reflexivity | reflexivity | by_evaluation
    | by_evaluation | discriminate | reflexivity | reflexivity | by_evaluation
    | reflexivity |].
  split; [exact Hstatus|]. exists old2, second. split; [exact Hload|].
  split; [exact Hsecond|]. apply Hagain; [apply list_elem_of_here | by_evaluation].
Defined.
